(** * SKYNET_CC: the payment-operations feedback loop

    A shallow embedding of the four cooperating pieces of the repository:
    - [src/core/agent.py]: [PaymentStatus], [PaymentSignal], [PaymentObserver];
    - [src/governance.py]: [GovernanceGuardrails];
    - [src/adaptive.py]: [AdaptivePolicy];
    - [src/simulation/simulator.py]: [PaymentSimulator].

    Python floats are IEEE 754 binary64 numbers and are embedded as Rocq's
    primitive floats, which compute with the same rounding.  Python objects
    are embedded as their attribute dictionaries, Python dicts as finite
    maps, and exceptions as the [Raised] branch of [outcome]. *)

From Stdlib Require Import ZArith List Bool Lia.
From Stdlib Require Import Floats.PrimFloat Floats.FloatOps Floats.SpecFloat.
From stdpp Require Import base option list gmap strings pretty.

Set Warnings "-inexact-float,-abstract-large-number".

Local Open Scope string_scope.
Local Open Scope Z_scope.

(** ** The fragment of Python the sources rely on *)

Module Py.

(** Exceptions.  [InvalidConfiguration] is the error kind named by the
    specification; no statement of the sources raises it. *)
Inductive exn : Type :=
| AttributeError (name : string)
| ZeroDivisionError
| TypeError
| IndexError
| ValueError
| OverflowError
| InvalidConfiguration.

(** The result of evaluating an expression or running a call. *)
Inductive outcome (A : Type) : Type :=
| Returned (a : A)
| Raised (e : exn).

Arguments Returned {A} a.
Arguments Raised {A} e.

Definition bind {A B : Type} (m : outcome A) (k : A -> outcome B) : outcome B :=
  match m with
  | Returned a => k a
  | Raised e => Raised e
  end.

(** Dynamically typed values: the ones that flow through the four components. *)
Inductive pyval : Type :=
| VNone
| VStr (s : string)
| VInt (z : Z)
| VFloat (f : float)
| VDatetime (microseconds : Z).

(** An instance is its attribute dictionary ([__dict__]); a dict literal with
    string keys is the same kind of map. *)
Abbreviation pyobject := (gmap string pyval).

(** [o.name] *)
Definition getattr (o : pyobject) (name : string) : outcome pyval :=
  match o !! name with
  | Some v => Returned v
  | None => Raised (AttributeError name)
  end.

(** [v == "literal"] for a plain value [v]. *)
Definition eq_str (v : pyval) (s : string) : bool :=
  match v with
  | VStr x => String.eqb x s
  | _ => false
  end.

(** The largest magnitude an int may have to convert to a float:
    from [2^1024 - 2^970] on, rounding to nearest-even overflows. *)
Definition float_overflow_bound : Z := 2 ^ 1024 - 2 ^ 970.

(** [float(z)] for an int [z]: the nearest binary64 number, ties to even. *)
Definition float_of_int (z : Z) : outcome float :=
  if Z.abs z <? float_overflow_bound
  then Returned (SF2Prim (binary_normalize 53 1024 z 0 false))
  else Raised OverflowError.

Definition spec_of_int (z : Z) : spec_float :=
  match z with
  | Z0 => S754_zero false
  | Zpos p => S754_finite false p 0
  | Zneg p => S754_finite true p 0
  end.

(** [a / b] on two ints: the correctly rounded quotient. *)
Definition int_truediv (a b : Z) : outcome float :=
  if b =? 0 then Raised ZeroDivisionError
  else if Z.abs a <? float_overflow_bound * Z.abs b
  then Returned (SF2Prim (SFdiv 53 1024 (spec_of_int a) (spec_of_int b)))
  else Raised OverflowError.

(** [x / b] where [x] is a number and [b] an int. *)
Definition truediv (x : pyval) (b : Z) : outcome float :=
  match x with
  | VInt a => int_truediv a b
  | VFloat f =>
      bind (float_of_int b) (fun d =>
      if b =? 0 then Raised ZeroDivisionError else Returned (f / d)%float)
  | _ => Raised TypeError
  end.

(** [x + y] on numbers. *)
Definition add (x y : pyval) : outcome pyval :=
  match x, y with
  | VInt a, VInt b => Returned (VInt (a + b))
  | VInt a, VFloat g => bind (float_of_int a) (fun f => Returned (VFloat (f + g)%float))
  | VFloat f, VInt b => bind (float_of_int b) (fun g => Returned (VFloat (f + g)%float))
  | VFloat f, VFloat g => Returned (VFloat (f + g)%float)
  | _, _ => Raised TypeError
  end.

(** [x < c] where [c] is a float literal; an int is compared exactly. *)
Definition int_lt_float (z : Z) (c : float) : bool :=
  match Prim2SF c with
  | S754_nan => false
  | S754_infinity s => negb s
  | S754_zero _ => z <? 0
  | S754_finite s m e =>
      let v := if s then Z.neg m else Z.pos m in
      if 0 <=? e then z <? v * 2 ^ e else z * 2 ^ (- e) <? v
  end.

Definition float_lt_int (c : float) (z : Z) : bool :=
  match Prim2SF c with
  | S754_nan => false
  | S754_infinity s => s
  | S754_zero _ => 0 <? z
  | S754_finite s m e =>
      let v := if s then Z.neg m else Z.pos m in
      if 0 <=? e then v * 2 ^ e <? z else v <? z * 2 ^ (- e)
  end.

Definition lt_float (x : pyval) (c : float) : outcome bool :=
  match x with
  | VInt z => Returned (int_lt_float z c)
  | VFloat f => Returned (f <? c)%float
  | _ => Raised TypeError
  end.

Definition gt_float (x : pyval) (c : float) : outcome bool :=
  match x with
  | VInt z => Returned (float_lt_int c z)
  | VFloat f => Returned (c <? f)%float
  | _ => Raised TypeError
  end.

(** [int(f)]: truncation toward zero. *)
Definition int_of_float (f : float) : outcome Z :=
  match Prim2SF f with
  | S754_nan => Raised ValueError
  | S754_infinity _ => Raised OverflowError
  | S754_zero _ => Returned 0
  | S754_finite s m e =>
      let q := if 0 <=? e then Z.pos m * 2 ^ e else Z.pos m / 2 ^ (- e) in
      Returned (if s then - q else q)
  end.

(** [n / d] rounded to the nearest integer, ties to even, for [0 < d]. *)
Definition round_half_even (n d : Z) : Z :=
  let q := n / d in
  let r := n mod d in
  if 2 * r <? d then q
  else if d <? 2 * r then q + 1
  else if Z.even q then q else q + 1.

(** [round(x, 2)]: the float nearest to the two-decimal number nearest to [x]. *)
Definition round2 (x : float) : float :=
  match Prim2SF x with
  | S754_finite s m e =>
      let n := (if s then Z.neg m else Z.pos m) * 100 in
      let hundredths := if 0 <=? e then n * 2 ^ e else round_half_even n (2 ^ (- e)) in
      if hundredths =? 0 then (if s then (-0)%float else 0%float)
      else SF2Prim (SFdiv 53 1024 (spec_of_int hundredths) (spec_of_int 100))
  | _ => x
  end.

(** [datetime - datetime] is a [timedelta], kept normalised:
    [0 <= seconds < 86400] and [0 <= microseconds < 10^6]; days carry the sign. *)
Record timedelta : Type := mk_timedelta {
  days : Z;
  seconds : Z;
  microseconds : Z
}.

Definition timedelta_of_microseconds (us : Z) : timedelta :=
  {| days := us / 86400000000;
     seconds := (us mod 86400000000) / 1000000;
     microseconds := us mod 1000000 |}.

(** Instants are counted in microseconds. *)
Definition datetime_sub (a b : Z) : timedelta := timedelta_of_microseconds (a - b).

(** [f"{z:06d}"] *)
Definition format_06d (z : Z) : string :=
  let digits := pretty (Z.to_N (Z.abs z)) in
  let width := if z <? 0 then 5%nat else 6%nat in
  let padding := String.concat "" (replicate (width - String.length digits) "0") in
  String.append (if z <? 0 then "-" else "") (String.append padding digits).

End Py.

Import Py.

Notation "x <- m ;; k" := (Py.bind m (fun x => k))
  (at level 100, m at next level, right associativity, only parsing).

(** ** [src/core/agent.py] *)

Module Agent.

(** [class PaymentStatus(str, Enum)] *)
Inductive PaymentStatus : Type := SUCCESS | FAILURE | PENDING.

Definition member_name (m : PaymentStatus) : string :=
  match m with
  | SUCCESS => "SUCCESS"
  | FAILURE => "FAILURE"
  | PENDING => "PENDING"
  end.

Definition value (m : PaymentStatus) : string :=
  match m with
  | SUCCESS => "success"
  | FAILURE => "failure"
  | PENDING => "pending"
  end.

Definition members : list PaymentStatus := [SUCCESS; FAILURE; PENDING].

(** [PaymentStatus.<name>]: attribute access on the enumeration class, for the
    names that are a member or no attribute of the class at all, which are the
    names the sources look up ([SUCCESS], [FAILED]).  Attributes the class
    inherits from [str] and [Enum] are not modelled. *)
Definition PaymentStatus_getattr (name : string) : outcome PaymentStatus :=
  match List.find (fun m => String.eqb (member_name m) name) members with
  | Some m => Returned m
  | None => Raised (AttributeError name)
  end.

(** The parameters are typed by their annotations, except [timestamp] and
    [latency_ms], for which the simulator passes a datetime and an int.
    What callers pass as [status]: a plain string (the dashboards) or a member
    of the enumeration (the simulator, and the parameter's default). *)
Inductive status_arg : Type :=
| Plain (s : string)
| Member (m : PaymentStatus).

(** [str(status)].  On a member of an [Enum] with a [str] mix-in this is
    [Enum.__str__], the qualified member name, not the member's value. *)
Definition str (status : status_arg) : string :=
  match status with
  | Plain s => s
  | Member m => String.append "PaymentStatus." (member_name m)
  end.

Definition of_option (o : option string) : pyval :=
  match o with
  | Some s => VStr s
  | None => VNone
  end.

(** [PaymentSignal.__init__]: one attribute assignment per named parameter, in
    source order; [kwargs] collects every other keyword and is never read. *)
Definition PaymentSignal
    (transaction_id : string) (amount : float) (currency : string)
    (status : status_arg) (latency_ms : pyval) (error_code : option string)
    (timestamp : pyval) (payment_method processor issuer_bank : option string)
    (kwargs : list (string * pyval)) : pyobject :=
  let self : pyobject := ∅ in
  let self := <["transaction_id" := VStr transaction_id]> self in
  let self := <["amount" := VFloat amount]> self in
  let self := <["currency" := VStr currency]> self in
  let self := <["status" := VStr (str status)]> self in
  let self := <["latency_ms" := latency_ms]> self in
  let self := <["error_code" := of_option error_code]> self in
  let self := <["timestamp" := timestamp]> self in
  let self := <["payment_method" := of_option payment_method]> self in
  let self := <["processor" := of_option processor]> self in
  let self := <["issuer_bank" := of_option issuer_bank]> self in
  self.

(** The names of the parameters of [__init__] other than [self] and [kwargs]. *)
Definition named_parameters : list string :=
  ["transaction_id"; "amount"; "currency"; "status"; "latency_ms";
   "error_code"; "timestamp"; "payment_method"; "processor"; "issuer_bank"].

(** [PaymentSignal(transaction_id)]: every other parameter at its default. *)
Definition PaymentSignal_default (transaction_id : string) : pyobject :=
  PaymentSignal transaction_id 0 "USD" (Member SUCCESS) (VFloat 0) None (VFloat 0)
    None None None [].

Record AgentMemory : Type := { recent_signals : list pyobject }.

Record PaymentObserver : Type := {
  memory : AgentMemory;
  signals : list pyobject
}.

(** [PaymentObserver(AgentMemory())] *)
Definition PaymentObserver_init (m : AgentMemory) : PaymentObserver :=
  {| memory := m; signals := [] |}.

Definition AgentMemory_init : AgentMemory := {| recent_signals := [] |}.

(** [observe]: the coroutine body has no suspension point. *)
Definition observe (signal : pyobject) (o : PaymentObserver) : PaymentObserver :=
  {| memory := {| recent_signals := recent_signals (memory o) ++ [signal] |};
     signals := signals o ++ [signal] |}.

(** [sum(1 for s in signals if s.status == v)], the running total in [acc]. *)
Fixpoint count_status (v : string) (acc : Z) (l : list pyobject) : outcome Z :=
  match l with
  | [] => Returned acc
  | s :: rest =>
      st <- getattr s "status" ;;
      count_status v (if eq_str st v then acc + 1 else acc) rest
  end.

(** [sum(s.latency_ms for s in signals)], the running total in [acc]. *)
Fixpoint sum_latency (acc : pyval) (l : list pyobject) : outcome pyval :=
  match l with
  | [] => Returned acc
  | s :: rest =>
      x <- getattr s "latency_ms" ;;
      acc' <- add acc x ;;
      sum_latency acc' rest
  end.

Definition calculate_metrics (o : PaymentObserver) : outcome pyobject :=
  let total := Z.of_nat (length (signals o)) in
  if total =? 0 then
    Returned (<["retry_rate" := VFloat 0]> (<["avg_latency" := VFloat 0]>
             (<["failure_rate" := VFloat 0]> (<["success_rate" := VFloat 0]>
             (<["failure_count" := VInt 0]> (<["success_count" := VInt 0]>
             (<["total_volume" := VInt 0]> ∅)))))))
  else
    success <- count_status "success" 0 (signals o) ;;
    failure <- count_status "failure" 0 (signals o) ;;
    success_rate <- int_truediv success total ;;
    failure_rate <- int_truediv failure total ;;
    latency <- sum_latency (VInt 0) (signals o) ;;
    avg_latency <- truediv latency total ;;
    Returned (<["retry_rate" := VFloat 0]> (<["avg_latency" := VFloat avg_latency]>
             (<["failure_rate" := VFloat failure_rate]>
             (<["success_rate" := VFloat success_rate]>
             (<["failure_count" := VInt failure]> (<["success_count" := VInt success]>
             (<["total_volume" := VInt total]> ∅))))))).

(** The number of retained signals whose stored status is [v]. *)
Definition status_count (v : string) (l : list pyobject) : Z :=
  Z.of_nat (length (List.filter
    (fun s => match s !! "status" with Some st => eq_str st v | None => false end) l)).

Record PaymentOpsAgent : Type := {
  observer : PaymentObserver;
  running : bool
}.

(** The agent's memory is the one object its observer holds. *)
Definition PaymentOpsAgent_init : PaymentOpsAgent :=
  {| observer := PaymentObserver_init AgentMemory_init; running := false |}.

Definition process_payment_signal (signal : pyobject) (a : PaymentOpsAgent) : PaymentOpsAgent :=
  {| observer := observe signal (observer a); running := running a |}.

Definition start (a : PaymentOpsAgent) : PaymentOpsAgent :=
  {| observer := observer a; running := true |}.

Definition stop (a : PaymentOpsAgent) : PaymentOpsAgent :=
  {| observer := observer a; running := false |}.

End Agent.

(** ** [src/governance.py] *)

Module Governance.

(** A decision exposes [action_type.value], the name of the proposed action. *)
Record ActionType : Type := { value : string }.

Record Decision : Type := { action_type : ActionType }.

(** Instants of [action_log] are [datetime.now()] readings, in microseconds. *)
Record GovernanceGuardrails : Type := {
  max_autonomous_actions_per_hour : Z;
  high_risk_actions : gset string;
  action_log : list Z
}.

Definition GovernanceGuardrails_init : GovernanceGuardrails :=
  {| max_autonomous_actions_per_hour := 5;
     high_risk_actions := {["DISABLE_PAYMENT_METHOD"]};
     action_log := [] |}.

(** [[a for a in self.action_log if (now-a).seconds<3600]] *)
Definition last_hour (now : Z) (log : list Z) : list Z :=
  List.filter (fun a => seconds (datetime_sub now a) <? 3600) log.

(** [allow(decision)], where [now] is what [datetime.now()] returns. *)
Definition allow (decision : Decision) (now : Z) (g : GovernanceGuardrails)
    : (bool * string) * GovernanceGuardrails :=
  if max_autonomous_actions_per_hour g <=? Z.of_nat (length (last_hour now (action_log g)))
  then ((false, "Rate limit exceeded"), g)
  else if bool_decide (value (action_type decision) ∈ high_risk_actions g)
  then ((false, "High-risk action requires approval"), g)
  else ((true, "Allowed"),
        {| max_autonomous_actions_per_hour := max_autonomous_actions_per_hour g;
           high_risk_actions := high_risk_actions g;
           action_log := action_log g ++ [now] |}).

(** A run of calls, each with its clock reading; the answers in call order. *)
Fixpoint allow_all (calls : list (Decision * Z)) (g : GovernanceGuardrails)
    : list (bool * string) * GovernanceGuardrails :=
  match calls with
  | [] => ([], g)
  | (d, now) :: rest =>
      let '(r, g1) := allow d now g in
      let '(rs, g2) := allow_all rest g1 in
      (r :: rs, g2)
  end.

(** The specification's window: the entries whose instant lies within 3600
    seconds of [now], by elapsed time. *)
Definition within_3600_seconds (now a : Z) : bool :=
  (0 <=? now - a) && (now - a <? 3600 * 1000000).

Definition entries_within_3600_seconds (now : Z) (log : list Z) : list Z :=
  List.filter (within_3600_seconds now) log.

End Governance.

(** ** [src/adaptive.py] *)

Module Adaptive.

Record AdaptivePolicy : Type := { success_threshold : float }.

Definition AdaptivePolicy_init : AdaptivePolicy := {| success_threshold := 0.8 |}.

(** [update(metrics)]: a comparison that raises leaves the threshold as it was. *)
Definition update (metrics : pyobject) (p : AdaptivePolicy)
    : outcome float * AdaptivePolicy :=
  let sr := default (VInt 0) (metrics !! "success_rate") in
  match lt_float sr 0.7 with
  | Raised e => (Raised e, p)
  | Returned true =>
      let p' := {| success_threshold := (success_threshold p * 0.95)%float |} in
      (Returned (success_threshold p'), p')
  | Returned false =>
      match gt_float sr 0.9 with
      | Raised e => (Raised e, p)
      | Returned true =>
          let p' := {| success_threshold := (success_threshold p * 1.05)%float |} in
          (Returned (success_threshold p'), p')
      | Returned false => (Returned (success_threshold p), p)
      end
  end.

(** [n] successive calls of [update] with the same metrics; the policy after
    the last one that returned. *)
Fixpoint update_times (n : nat) (metrics : pyobject) (p : AdaptivePolicy) : AdaptivePolicy :=
  match n with
  | O => p
  | S k => update_times k metrics (snd (update metrics p))
  end.

(** Does each of the next [n] calls return a threshold strictly on the
    [cmp] side of the one before it? *)
Fixpoint strictly_monotone (cmp : float -> float -> bool) (n : nat)
    (metrics : pyobject) (p : AdaptivePolicy) : bool :=
  match n with
  | O => true
  | S k =>
      match update metrics p with
      | (Returned t, p') =>
          cmp t (success_threshold p) && strictly_monotone cmp k metrics p'
      | (Raised _, _) => false
      end
  end.

End Adaptive.

(** ** [src/simulation/simulator.py] *)

Module Simulator.

(** One entry of [degradation_scenarios]: a dict with these five keys. *)
Record Scenario : Type := {
  type : string;
  affected : string;
  start : Z;
  end_ : Z;
  severity : float
}.

Record PaymentSimulator : Type := {
  payment_methods : list string;
  issuer_banks : list string;
  processors : list string;
  error_codes : list string;
  currencies : list string;
  merchant_categories : list string;
  degradation_scenarios : list Scenario;
  transaction_counter : Z
}.

Definition PaymentSimulator_init : PaymentSimulator :=
  {| payment_methods := ["visa"; "mastercard"; "amex"; "discover"; "paypal"];
     issuer_banks := ["chase"; "bofa"; "wells_fargo"; "citi"; "capital_one"];
     processors := ["stripe"; "adyen"; "braintree"; "square"];
     error_codes := ["E001_INSUFFICIENT_FUNDS"; "E002_CARD_DECLINED";
                     "E003_NETWORK_ERROR"; "E004_TIMEOUT";
                     "E005_FRAUD_SUSPECTED"; "E006_INVALID_CARD"];
     currencies := ["USD"; "EUR"; "GBP"; "CAD"];
     merchant_categories := ["retail"; "travel"; "food"; "entertainment"; "services"];
     degradation_scenarios := [];
     transaction_counter := 0 |}.

Definition with_scenarios (l : list Scenario) (sim : PaymentSimulator) : PaymentSimulator :=
  {| payment_methods := payment_methods sim;
     issuer_banks := issuer_banks sim;
     processors := processors sim;
     error_codes := error_codes sim;
     currencies := currencies sim;
     merchant_categories := merchant_categories sim;
     degradation_scenarios := l;
     transaction_counter := transaction_counter sim |}.

Definition with_counter (c : Z) (sim : PaymentSimulator) : PaymentSimulator :=
  {| payment_methods := payment_methods sim;
     issuer_banks := issuer_banks sim;
     processors := processors sim;
     error_codes := error_codes sim;
     currencies := currencies sim;
     merchant_categories := merchant_categories sim;
     degradation_scenarios := degradation_scenarios sim;
     transaction_counter := c |}.

(** [add_degradation_scenario]: the body is the one [append]. *)
Definition add_degradation_scenario (scenario_type affected_dimension : string)
    (start_after duration : Z) (severity : float) (sim : PaymentSimulator)
    : outcome unit * PaymentSimulator :=
  (Returned tt,
   with_scenarios
     (degradation_scenarios sim ++
      [{| type := scenario_type;
          affected := affected_dimension;
          start := start_after;
          end_ := start_after + duration;
          severity := severity |}])
     sim).

Definition setup_realistic_scenarios (sim : PaymentSimulator) : PaymentSimulator :=
  let sim := snd (add_degradation_scenario "issuer_degradation" "chase" 50 100 0.6 sim) in
  let sim := snd (add_degradation_scenario "retry_storm" "global" 100 50 0.5 sim) in
  let sim := snd (add_degradation_scenario "method_fatigue" "visa" 80 80 0.4 sim) in
  let sim := snd (add_degradation_scenario "latency_spike" "global" 150 30 0.7 sim) in
  let sim := snd (add_degradation_scenario "error_clustering" "E005_FRAUD_SUSPECTED" 180 40 0.25 sim) in
  sim.

(** What the interpreter supplies from outside the program: the values the
    [random] module hands out, draw by draw, and the wall clock.  [pick k] is the integer behind the [k]-th draw when that
    draw picks from a range, [fraction k] its value when it is [random.random()];
    [now k] is [datetime.now()] read after [k] draws. *)
Record Host : Type := {
  pick : nat -> nat;
  fraction : nat -> float;
  now : nat -> Z
}.

(** The state a call runs in: the simulator and the number of draws made. *)
Record World : Type := {
  sim : PaymentSimulator;
  draws : nat
}.

Definition gen (A : Type) : Type := World -> outcome A * World.

Definition ret {A : Type} (a : A) : gen A := fun w => (Returned a, w).

Definition raise {A : Type} (e : exn) : gen A := fun w => (Raised e, w).

Definition gbind {A B : Type} (m : gen A) (k : A -> gen B) : gen B :=
  fun w =>
    match m w with
    | (Returned a, w') => k a w'
    | (Raised e, w') => (Raised e, w')
    end.

Definition lift {A : Type} (o : outcome A) : gen A := fun w => (o, w).

Definition drawn (w : World) : World := {| sim := sim w; draws := S (draws w) |}.

(** [random.choice(seq)] *)
Definition choice (h : Host) (seq : list string) : gen string :=
  fun w =>
    match seq !! (pick h (draws w) mod length seq)%nat with
    | Some x => (Returned x, drawn w)
    | None => (Raised IndexError, w)
    end.

(** [random.randint(a, b)] *)
Definition randint (h : Host) (a b : Z) : gen Z :=
  fun w =>
    if b <? a then (Raised ValueError, w)
    else (Returned (a + Z.of_nat (pick h (draws w)) mod (b - a + 1)), drawn w).

(** [random.random()] *)
Definition random (h : Host) : gen float :=
  fun w => (Returned (fraction h (draws w)), drawn w).

(** [random.uniform(a, b)] is [a + (b - a) * random()]. *)
Definition uniform (h : Host) (a b : float) : gen float :=
  fun w => (Returned (a + (b - a) * fraction h (draws w))%float, drawn w).

(** [self.transaction_counter += 1] *)
Definition increment_counter : gen unit :=
  fun w =>
    (Returned tt,
     {| sim := with_counter (transaction_counter (sim w) + 1) (sim w);
        draws := draws w |}).

Definition read {A : Type} (f : PaymentSimulator -> A) : gen A :=
  fun w => (Returned (f (sim w)), w).

Definition clock (h : Host) : gen Z := fun w => (Returned (now h (draws w)), w).

Notation "x <~ m ;; k" := (gbind m (fun x => k))
  (at level 100, m at next level, right associativity, only parsing).

(** The locals the scenario loop updates. *)
Record Draft : Type := {
  success_prob : float;
  base_latency : Z;
  retry_count : Z;
  error_code : option string
}.

(** [scenario['start'] <= self.transaction_counter <= scenario['end']] *)
Definition active (counter : Z) (scenario : Scenario) : bool :=
  (start scenario <=? counter) && (counter <=? end_ scenario).

(** The body of the loop over [degradation_scenarios], for one scenario. *)
Definition apply_scenario (h : Host) (counter : Z) (payment_method issuer : string)
    (scenario : Scenario) (d : Draft) : gen Draft :=
  if active counter scenario then
    if String.eqb (type scenario) "issuer_degradation" then
      if String.eqb (affected scenario) issuer then
        extra <~ lift (int_of_float (300 * severity scenario)%float) ;;
        ret {| success_prob := (success_prob d * (1 - severity scenario))%float;
               base_latency := base_latency d + extra;
               retry_count := retry_count d;
               error_code := error_code d |}
      else ret d
    else if String.eqb (type scenario) "method_fatigue" then
      if String.eqb (affected scenario) payment_method then
        ret {| success_prob := (success_prob d * (1 - severity scenario))%float;
               base_latency := base_latency d;
               retry_count := retry_count d;
               error_code := error_code d |}
      else ret d
    else if String.eqb (type scenario) "retry_storm" then
      u <~ random h ;;
      if (u <? severity scenario)%float then
        retries <~ randint h 1 4 ;;
        ret {| success_prob := (success_prob d * 0.7)%float;
               base_latency := base_latency d;
               retry_count := retries;
               error_code := error_code d |}
      else ret d
    else if String.eqb (type scenario) "latency_spike" then
      extra <~ lift (int_of_float (1000 * severity scenario)%float) ;;
      ret {| success_prob := success_prob d;
             base_latency := base_latency d + extra;
             retry_count := retry_count d;
             error_code := error_code d |}
    else if String.eqb (type scenario) "error_clustering" then
      u <~ random h ;;
      if (u <? severity scenario)%float then
        ret {| success_prob := 0.1%float;
               base_latency := base_latency d;
               retry_count := retry_count d;
               error_code := Some (affected scenario) |}
      else ret d
    else ret d
  else ret d.

(** [for scenario in self.degradation_scenarios: ...] *)
Fixpoint apply_scenarios (h : Host) (counter : Z) (payment_method issuer : string)
    (scenarios : list Scenario) (d : Draft) : gen Draft :=
  match scenarios with
  | [] => ret d
  | scenario :: rest =>
      d' <~ apply_scenario h counter payment_method issuer scenario d ;;
      apply_scenarios h counter payment_method issuer rest d'
  end.

(** [not error_code]: [None] and the empty string are falsy. *)
Definition falsy (error_code : option string) : bool :=
  match error_code with
  | None => true
  | Some s => String.eqb s ""
  end.

(** The draft the outcome draw is made against: everything
    [generate_payment] does before [# Determine outcome]. *)
Definition draft_payment (h : Host) : gen (string * string * string * Draft) :=
  _ <~ increment_counter ;;
  methods <~ read payment_methods ;;
  payment_method <~ choice h methods ;;
  banks <~ read issuer_banks ;;
  issuer <~ choice h banks ;;
  procs <~ read processors ;;
  processor <~ choice h procs ;;
  latency0 <~ randint h 200 800 ;;
  counter <~ read transaction_counter ;;
  scenarios <~ read degradation_scenarios ;;
  d <~ apply_scenarios h counter payment_method issuer scenarios
         {| success_prob := 0.85%float; base_latency := latency0;
            retry_count := 0; error_code := None |} ;;
  ret (payment_method, issuer, processor, d).

Definition generate_payment (h : Host) : gen pyobject :=
  drafted <~ draft_payment h ;;
  let '(payment_method, issuer, processor, d) := drafted in
  u <~ random h ;;
  decided <~
    (if (u <? success_prob d)%float then
       status <~ lift (Agent.PaymentStatus_getattr "SUCCESS") ;;
       ret (status, None)
     else
       status <~ lift (Agent.PaymentStatus_getattr "FAILED") ;;
       if falsy (error_code d) then
         codes <~ read error_codes ;;
         code <~ choice h codes ;;
         ret (status, Some code)
       else ret (status, error_code d)) ;;
  let '(status, error_code) := decided in
  noise <~ randint h (-100) 100 ;;
  let latency := base_latency d + noise in
  x <~ uniform h 10 1000 ;;
  let amount := round2 x in
  counter <~ read transaction_counter ;;
  timestamp <~ clock h ;;
  pool <~ read currencies ;;
  currency <~ choice h pool ;;
  categories <~ read merchant_categories ;;
  merchant_category <~ choice h categories ;;
  risk_score <~ random h ;;
  ret (Agent.PaymentSignal
         (String.append "txn_" (format_06d counter)) amount currency
         (Agent.Member status) (VInt (Z.max latency 100)) error_code
         (VDatetime timestamp) (Some payment_method) (Some processor) (Some issuer)
         [("retry_count", VInt (retry_count d));
          ("merchant_category", VStr merchant_category);
          ("risk_score", VFloat risk_score)]).

(** [[self.generate_payment() for _ in range(count)]] *)
Fixpoint generate_batch (h : Host) (count : nat) : gen (list pyobject) :=
  match count with
  | O => ret []
  | S n =>
      first <~ generate_payment h ;;
      rest <~ generate_batch h n ;;
      ret (first :: rest)
  end.

(** A host whose every draw is the same. *)
Definition constant_host (i : nat) (u : float) (t : Z) : Host :=
  {| pick := fun _ => i; fraction := fun _ => u; now := fun _ => t |}.

Definition fresh_world : World := {| sim := PaymentSimulator_init; draws := 0 |}.

End Simulator.

(** ** [src/frontend/dashboard.py]: the manual batch *)

Module Frontend.

(** What the sidebar widgets return on one run of the script. *)
Record Inputs : Type := {
  total_tx : Z;
  success_tx : Z;
  failed_tx : Z;
  avg_latency : Z;
  p95_latency : Z;
  issuer : string;
  processor : string;
  payment_method : string;
  amount : float;
  add_tx : bool;
  clear_log : bool
}.

(** [st.session_state], which outlives the runs. *)
Record SessionState : Type := {
  signals : list pyobject;
  batch_id : Z
}.

(** The state before the first run: the two keys at their initial values. *)
Definition SessionState_init : SessionState := {| signals := []; batch_id := 1 |}.

(** One run: the agent it creates, the session, and the draws made so far. *)
Record Run : Type := {
  agent : Agent.PaymentOpsAgent;
  session : SessionState;
  draws : nat
}.

(** [z * f] for an int [z] and a float [f]. *)
Definition int_times (z : Z) (f : float) : outcome float :=
  x <- float_of_int z ;; Returned (x * f)%float.

(** [random.uniform(a, b)] at the draw [u]. *)
Definition uniform_at (a b u : float) : float := (a + (b - a) * u)%float.

(** The body of either loop: build the signal, tag it with the batch, hand it
    to the agent, append it to the session. *)
Definition add_signal (h : Simulator.Host) (i : Inputs) (now : float) (batch : Z)
    (prefix status : string) (error_code : option string)
    (latency : Z) (low high : float) (r : Run) : outcome Run :=
  let k := draws r in
  let transaction_id :=
    String.append prefix (pretty (length (signals (session r)))) in
  let value := uniform_at (amount i * 0.7) (amount i * 1.3) (Simulator.fraction h k) in
  a <- int_times latency low ;;
  b <- int_times latency high ;;
  let latency_ms := uniform_at a b (Simulator.fraction h (S k)) in
  let timestamp := (now - uniform_at 0 600 (Simulator.fraction h (S (S k))))%float in
  let sig :=
    Agent.PaymentSignal transaction_id value "USD" (Agent.Plain status)
      (VFloat latency_ms) error_code (VFloat timestamp)
      (Some (payment_method i)) (Some (processor i)) (Some (issuer i)) [] in
  let sig := <["batch_id" := VInt batch]> sig in
  Returned {| agent := Agent.process_payment_signal sig (agent r);
              session := {| signals := signals (session r) ++ [sig];
                            batch_id := batch_id (session r) |};
              draws := S (S (S k)) |}.

(** [for _ in range(n): body] *)
Fixpoint repeat_body (n : nat) (body : Run -> outcome Run) (r : Run) : outcome Run :=
  match n with
  | O => Returned r
  | S m => r' <- body r ;; repeat_body m body r'
  end.

(** The script from its top to the end of the [ADD TRANSACTIONS] block, on the
    session left by the run before; [now] is what [time.time()] returns. *)
Definition run (h : Simulator.Host) (i : Inputs) (now : float)
    (before : SessionState) (k : nat) : outcome Run :=
  let agent := Agent.PaymentOpsAgent_init in
  let valid := success_tx i + failed_tx i =? total_tx i in
  let session := if clear_log i then {| signals := []; batch_id := 1 |} else before in
  if add_tx i && valid then
    let batch := batch_id session in
    r <- repeat_body (Z.to_nat (success_tx i))
           (add_signal h i now batch "S-" "success" None (avg_latency i) 0.7 1.1)
           {| agent := agent; session := session; draws := k |} ;;
    r <- repeat_body (Z.to_nat (failed_tx i))
           (add_signal h i now batch "F-" "failure" (Some "TIMEOUT") (p95_latency i) 0.9 1.3)
           r ;;
    Returned {| agent := Frontend.agent r;
                session := {| signals := signals (Frontend.session r);
                              batch_id := batch_id (Frontend.session r) + 1 |};
                draws := Frontend.draws r |}
  else Returned {| agent := agent; session := session; draws := k |}.

End Frontend.

(** ** Predicates and inputs the statements are written with *)

(** A retained signal the observer can aggregate: [status] holds a string and
    [latency_ms] a float, or an int of at most 63 bits. *)
Definition has_status (s : pyobject) : bool :=
  match s !! "status" with
  | Some (VStr _) => true
  | _ => false
  end.

Definition numeric_latency (s : pyobject) : bool :=
  match s !! "latency_ms" with
  | Some (VFloat _) => true
  | Some (VInt z) => Z.abs z <? 2 ^ 63
  | _ => false
  end.

Definition well_formed (s : pyobject) : bool := has_status s && numeric_latency s.

(** The observer after [observe] has been called on each signal in turn. *)
Definition observe_all (l : list pyobject) (o : Agent.PaymentObserver) : Agent.PaymentObserver :=
  fold_left (fun acc s => Agent.observe s acc) l o.

Definition fresh_observer : Agent.PaymentObserver :=
  Agent.PaymentObserver_init Agent.AgentMemory_init.

(** The running total of [sum_latency] after [k] signals: a float, or an int
    of magnitude at most [k * 2^63]. *)
Definition partial_sum (k : Z) (acc : pyval) : Prop :=
  match acc with
  | VFloat _ => True
  | VInt a => Z.abs a <= k * 2 ^ 63
  | _ => False
  end.

(** Two signals that carry retry counts 3 and 4, the first built as the
    dashboard builds them and the second as the simulator does. *)
Definition retried_signals : list pyobject :=
  [Agent.PaymentSignal "F-0" 42.5 "USD" (Agent.Plain "failure") (VFloat 950.25)
     (Some "TIMEOUT") (VFloat 1700000000) (Some "visa") (Some "stripe") (Some "chase")
     [("retry_count", VInt 3)];
   Agent.PaymentSignal "txn_000002" 99.99 "EUR" (Agent.Member Agent.SUCCESS) (VInt 431)
     None (VDatetime 1700000000000000) (Some "amex") (Some "adyen") (Some "citi")
     [("retry_count", VInt 4); ("merchant_category", VStr "travel");
      ("risk_score", VFloat 0.5)]].

(** A status string the observer knows: the value of a [PaymentStatus] member. *)
Definition known_status (s : pyobject) : bool :=
  match s !! "status" with
  | Some (VStr st) =>
      String.eqb st "success" || String.eqb st "failure" || String.eqb st "pending"
  | _ => false
  end.

(** Do the two rates add up to [1.0] on a history of [total] signals of which
    [success] succeeded and the others failed? *)
Definition rates_sum_to_one (success total : Z) : bool :=
  match int_truediv success total, int_truediv (total - success) total with
  | Returned a, Returned b => (a + b =? 1)%float
  | _, _ => false
  end.

Definition rates_sum_to_one_up_to (n : nat) : bool :=
  forallb (fun total =>
             forallb (fun success => rates_sum_to_one (Z.of_nat success) (Z.of_nat total))
               (seq 0 (S total)))
    (seq 1 n).

(** The signal the simulator returns on a fresh instance when every draw of
    [random.random()] is 0.5 and every pick is the first of its range. *)
Definition simulated_signal : pyobject :=
  Agent.PaymentSignal "txn_000001" 505 "USD" (Agent.Member Agent.SUCCESS) (VInt 100)
    None (VDatetime 0) (Some "visa") (Some "stripe") (Some "chase")
    [("retry_count", VInt 0); ("merchant_category", VStr "retail");
     ("risk_score", VFloat 0.5)].

Definition high_risk (g : Governance.GovernanceGuardrails) (d : Governance.Decision) : bool :=
  bool_decide (Governance.value (Governance.action_type d) ∈ Governance.high_risk_actions g).

Definition decision_of (name : string) : Governance.Decision :=
  {| Governance.action_type := {| Governance.value := name |} |}.

(** Five actions that are not high-risk, one second apart. *)
Definition five_calls : list (Governance.Decision * Z) :=
  [(decision_of "ADJUST_RETRY", 0); (decision_of "ADJUST_RETRY", 1000000);
   (decision_of "REROUTE", 2000000); (decision_of "ALERT_OPS", 3000000);
   (decision_of "ADJUST_RETRY", 4000000)].

(** One day and ten seconds after the first of [five_calls]. *)
Definition next_day : Z := 86400 * 1000000 + 10 * 1000000.

Definition high_risk_decision : Governance.Decision := decision_of "DISABLE_PAYMENT_METHOD".

(** A high-risk action between two that are not, one second apart: the quota
    of five is far from used when it is proposed. *)
Definition calls_under_quota : list (Governance.Decision * Z) :=
  [(decision_of "ADJUST_RETRY", 0); (high_risk_decision, 1000000);
   (decision_of "REROUTE", 2000000)].

Definition metrics_with_success_rate (sr : float) : pyobject :=
  {[ "success_rate" := VFloat sr ]}.


Definition visa_fatigue (s e : Z) : Simulator.Scenario :=
  {| Simulator.type := "method_fatigue"; Simulator.affected := "visa";
     Simulator.start := s; Simulator.end_ := e; Simulator.severity := 0.4 |}.




(** The instants of the calls that were approved, in call order. *)
Fixpoint approved_times (calls : list (Governance.Decision * Z))
    (answers : list (bool * string)) : list Z :=
  match calls, answers with
  | (_, t) :: cs, (ok, _) :: rs =>
      if ok then t :: approved_times cs rs else approved_times cs rs
  | _, _ => []
  end.

(** Every call is made at or after, and less than 3600 seconds after, each
    instant of [earlier] and each call before it. *)
Fixpoint within_the_hour (earlier : list Z) (calls : list (Governance.Decision * Z)) : bool :=
  match calls with
  | [] => true
  | (_, t) :: rest =>
      forallb (fun a => (0 <=? t - a) && (t - a <? 3600 * 1000000)) earlier
      && within_the_hour (earlier ++ [t]) rest
  end.

Definition approvals (answers : list (bool * string)) : Z :=
  Z.of_nat (length (List.filter fst answers)).

(** Eight calls within eight seconds, none of them high-risk. *)
Definition eight_calls : list (Governance.Decision * Z) :=
  (five_calls ++ [(decision_of "REROUTE", 5000000); (decision_of "ALERT_OPS", 6000000);
                  (decision_of "ADJUST_RETRY", 7000000)])%list.

Definition tightened (p : Adaptive.AdaptivePolicy) : outcome float * Adaptive.AdaptivePolicy :=
  (Returned (Adaptive.success_threshold p * 0.95)%float,
   {| Adaptive.success_threshold := (Adaptive.success_threshold p * 0.95)%float |}).

Definition relaxed (p : Adaptive.AdaptivePolicy) : outcome float * Adaptive.AdaptivePolicy :=
  (Returned (Adaptive.success_threshold p * 1.05)%float,
   {| Adaptive.success_threshold := (Adaptive.success_threshold p * 1.05)%float |}).

Definition is_number (v : pyval) : bool :=
  match v with
  | VInt _ | VFloat _ => true
  | _ => false
  end.

(** The agent after [process_payment_signal] has been awaited on each signal. *)
Definition process_all (l : list pyobject) (a : Agent.PaymentOpsAgent) : Agent.PaymentOpsAgent :=
  fold_left (fun acc s => Agent.process_payment_signal s acc) l a.

Definition lacks_status (s : pyobject) : bool :=
  match s !! "status" with
  | None => true
  | Some _ => false
  end.

(** A stored status that [str] made of a member of [PaymentStatus]. *)
Definition member_status (s : pyobject) : bool :=
  match s !! "status" with
  | Some (VStr st) =>
      existsb (fun m => String.eqb st (Agent.str (Agent.Member m))) Agent.members
  | _ => false
  end.

Definition snapshot_keys : gset string :=
  {[ "total_volume"; "success_count"; "failure_count"; "success_rate";
     "failure_rate"; "avg_latency"; "retry_rate" ]}.

(** Three signals built as the dashboard builds them. *)
Definition dashboard_signals : list pyobject :=
  [Agent.PaymentSignal "S-0" 91.5 "USD" (Agent.Plain "success") (VFloat 280.5)
     None (VFloat 1700000000) (Some "CARD") (Some "VISA") (Some "HDFC") [];
   Agent.PaymentSignal "S-1" 120.25 "USD" (Agent.Plain "success") (VFloat 301)
     None (VFloat 1700000100) (Some "CARD") (Some "VISA") (Some "HDFC") [];
   Agent.PaymentSignal "F-2" 77 "USD" (Agent.Plain "failure") (VFloat 640.75)
     (Some "TIMEOUT") (VFloat 1700000200) (Some "CARD") (Some "VISA") (Some "HDFC") []].

(** A history of two without a status stored as ["success"]: the signal the
    simulator returns, then a failure built as the dashboard builds them. *)
Definition history_without_success : list pyobject :=
  [simulated_signal;
   Agent.PaymentSignal "F-0" 77 "USD" (Agent.Plain "failure") (VFloat 640.75)
     (Some "TIMEOUT") (VFloat 1700000200) (Some "CARD") (Some "VISA") (Some "HDFC") []].

(** Running [m] leaves the simulator as [f] makes it, whether [m] returns or
    raises. *)
Definition changes_sim {A : Type} (f : Simulator.PaymentSimulator -> Simulator.PaymentSimulator)
    (m : Simulator.gen A) : Prop :=
  forall w, Simulator.sim (snd (m w)) = f (Simulator.sim w).

Definition next_payment (sim : Simulator.PaymentSimulator) : Simulator.PaymentSimulator :=
  Simulator.with_counter (Simulator.transaction_counter sim + 1) sim.

(** What every signal the simulator returns looks like, [counter] being the
    number of the payment. *)
Definition simulator_signal (counter : Z) (s : pyobject) : Prop :=
  s !! "status" = Some (VStr "PaymentStatus.SUCCESS")
  /\ s !! "error_code" = Some VNone
  /\ s !! "transaction_id" = Some (VStr (String.append "txn_" (format_06d counter)))
  /\ (exists latency, s !! "latency_ms" = Some (VInt latency) /\ 100 <= latency)
  /\ dom s = list_to_set Agent.named_parameters
  /\ s !! "retry_count" = None.

(** The batch of two the simulator returns on a fresh instance when every
    draw of [random.random()] is 0.5 and every pick is the first of its range. *)
Definition simulated_batch : list pyobject :=
  [simulated_signal;
   Agent.PaymentSignal "txn_000002" 505 "USD" (Agent.Member Agent.SUCCESS) (VInt 100)
     None (VDatetime 0) (Some "visa") (Some "stripe") (Some "chase")
     [("retry_count", VInt 0); ("merchant_category", VStr "retail");
      ("risk_score", VFloat 0.5)]].

Definition known_scenario_types : list string :=
  ["issuer_degradation"; "method_fatigue"; "retry_storm"; "latency_spike";
   "error_clustering"].

Definition known_type (scenario : Simulator.Scenario) : bool :=
  existsb (String.eqb (Simulator.type scenario)) known_scenario_types.

Definition fraud_clustering (s e : Z) (severity : float) : Simulator.Scenario :=
  {| Simulator.type := "error_clustering"; Simulator.affected := "E005_FRAUD_SUSPECTED";
     Simulator.start := s; Simulator.end_ := e; Simulator.severity := severity |}.

(** A signal of a manual batch: its status, its batch tag, a float latency. *)
Definition batch_signal (batch : Z) (status : string) (s : pyobject) : Prop :=
  s !! "status" = Some (VStr status)
  /\ s !! "batch_id" = Some (VInt batch)
  /\ exists latency, s !! "latency_ms" = Some (VFloat latency).

(** The [i]-th signal of a session carries the number [i] in its identifier. *)
Definition numbered (offset : nat) (l : list pyobject) : Prop :=
  forall (i : nat) (s : pyobject),
    l !! i = Some s ->
    exists prefix, (prefix = "S-" \/ prefix = "F-")
                   /\ s !! "transaction_id"
                      = Some (VStr (String.append prefix (pretty (offset + i)%nat))).

Definition transaction_id_of (s : pyobject) : option pyval := s !! "transaction_id".

(** The session a run starts from. *)
Definition session_at_start (i : Frontend.Inputs) (before : Frontend.SessionState)
    : Frontend.SessionState :=
  if Frontend.clear_log i then Frontend.SessionState_init else before.

(** The sidebar at its initial values, with the add button pressed. *)
Definition default_inputs : Frontend.Inputs :=
  {| Frontend.total_tx := 50; Frontend.success_tx := 40; Frontend.failed_tx := 10;
     Frontend.avg_latency := 300; Frontend.p95_latency := 600;
     Frontend.issuer := "HDFC"; Frontend.processor := "VISA";
     Frontend.payment_method := "CARD"; Frontend.amount := 100;
     Frontend.add_tx := true; Frontend.clear_log := false |}.

(** ** The signal constructor *)

Section Constructor.

Variables (transaction_id : string) (amount : float) (currency : string)
  (status : Agent.status_arg) (latency_ms : pyval) (error_code : option string)
  (timestamp : pyval) (payment_method processor issuer_bank : option string).

Lemma PaymentSignal_dom (kwargs : list (string * pyval)) :
  dom (Agent.PaymentSignal transaction_id amount currency status latency_ms
         error_code timestamp payment_method processor issuer_bank kwargs)
  = list_to_set Agent.named_parameters.
Proof.
  unfold Agent.PaymentSignal, Agent.named_parameters; cbn [list_to_set].
  rewrite !dom_insert_L, dom_empty_L. set_solver.
Qed.

Lemma PaymentSignal_status (kwargs : list (string * pyval)) :
  Agent.PaymentSignal transaction_id amount currency status latency_ms
    error_code timestamp payment_method processor issuer_bank kwargs !! "status"
  = Some (VStr (Agent.str status)).
Proof. unfold Agent.PaymentSignal. by simplify_map_eq. Qed.

Lemma PaymentSignal_latency_ms (kwargs : list (string * pyval)) :
  Agent.PaymentSignal transaction_id amount currency status latency_ms
    error_code timestamp payment_method processor issuer_bank kwargs !! "latency_ms"
  = Some latency_ms.
Proof. unfold Agent.PaymentSignal. by simplify_map_eq. Qed.

End Constructor.

(** C10. [PaymentSignal.__init__] accepts any extra keyword arguments and
    drops them: the instance is the one built without them, its attributes
    are exactly the ten named parameters, and no extra keyword whose name is
    not one of the ten becomes an attribute. *)
Theorem PaymentSignal_discards_kwargs :
  forall (transaction_id : string) (amount : float) (currency : string)
    (status : Agent.status_arg) (latency_ms : pyval) (error_code : option string)
    (timestamp : pyval) (payment_method processor issuer_bank : option string)
    (kwargs : list (string * pyval)),
    let s := Agent.PaymentSignal transaction_id amount currency status latency_ms
               error_code timestamp payment_method processor issuer_bank kwargs in
    s = Agent.PaymentSignal transaction_id amount currency status latency_ms
          error_code timestamp payment_method processor issuer_bank []
    /\ dom s = list_to_set Agent.named_parameters
    /\ length Agent.named_parameters = 10%nat
    /\ NoDup Agent.named_parameters
    /\ (forall k v, (k, v) ∈ kwargs -> k ∉ Agent.named_parameters -> s !! k = None).
Proof.
  intros. subst s. split; [reflexivity|]. split; [apply PaymentSignal_dom|].
  split; [reflexivity|]. split.
  - by apply (bool_decide_unpack _).
  - intros k v _ Hk. apply not_elem_of_dom. rewrite PaymentSignal_dom. set_solver.
Qed.

(** ** The observer *)

Lemma float_overflow_bound_large : 2 ^ 126 < float_overflow_bound.
Proof. reflexivity. Qed.

Lemma float_of_int_returns (z : Z) :
  Z.abs z <= 2 ^ 126 -> exists f, float_of_int z = Returned f.
Proof.
  intros Hz. unfold float_of_int.
  pose proof float_overflow_bound_large as HB.
  destruct (Z.ltb_spec (Z.abs z) float_overflow_bound); [eauto | lia].
Qed.

Lemma int_truediv_returns (a b : Z) :
  0 < b -> Z.abs a <= 2 ^ 126 * b -> exists f, int_truediv a b = Returned f.
Proof.
  intros Hb Ha. unfold int_truediv.
  pose proof float_overflow_bound_large as HB.
  destruct (Z.eqb_spec b 0); [lia|].
  destruct (Z.ltb_spec (Z.abs a) (float_overflow_bound * Z.abs b)); [eauto | nia].
Qed.

Lemma int_truediv_no_zero_division (a b : Z) :
  b <> 0 -> int_truediv a b <> Raised ZeroDivisionError.
Proof.
  intros Hb. unfold int_truediv.
  destruct (Z.eqb_spec b 0); [done|]. by case_match.
Qed.

Lemma truediv_no_zero_division (x : pyval) (b : Z) :
  b <> 0 -> truediv x b <> Raised ZeroDivisionError.
Proof.
  intros Hb. destruct x; cbn; try done.
  - by apply int_truediv_no_zero_division.
  - unfold float_of_int. case_match; cbn; [|done].
    destruct (Z.eqb_spec b 0); done.
Qed.

Lemma bind_no_zero_division {A B : Type} (m : outcome A) (k : A -> outcome B) :
  m <> Raised ZeroDivisionError ->
  (forall a, m = Returned a -> k a <> Raised ZeroDivisionError) ->
  Py.bind m k <> Raised ZeroDivisionError.
Proof.
  destruct m as [a|e]; cbn; intros Hm Hk; [by apply Hk|].
  intros He. apply Hm. congruence.
Qed.

Lemma add_no_zero_division (x y : pyval) : add x y <> Raised ZeroDivisionError.
Proof.
  destruct x, y; cbn; try done; unfold float_of_int; by case_match.
Qed.

Lemma count_status_no_zero_division (v : string) (l : list pyobject) :
  forall acc, Agent.count_status v acc l <> Raised ZeroDivisionError.
Proof.
  induction l as [|s rest IH]; intros acc; cbn; [done|].
  unfold getattr. destruct (s !! "status"); cbn; [apply IH | done].
Qed.

Lemma sum_latency_no_zero_division (l : list pyobject) :
  forall acc, Agent.sum_latency acc l <> Raised ZeroDivisionError.
Proof.
  induction l as [|s rest IH]; intros acc; cbn; [done|].
  unfold getattr. destruct (s !! "latency_ms") as [x|]; cbn; [|done].
  apply bind_no_zero_division; [apply add_no_zero_division | intros; apply IH].
Qed.

Lemma count_status_returns (v : string) (l : list pyobject) :
  forallb has_status l = true ->
  forall acc, Agent.count_status v acc l = Returned (acc + Agent.status_count v l).
Proof.
  unfold Agent.status_count.
  induction l as [|s rest IH]; intros Hl acc; cbn.
  - f_equal. lia.
  - cbn in Hl. apply andb_prop in Hl as [Hs Hrest].
    unfold has_status in Hs. unfold getattr.
    destruct (s !! "status") as [st|]; [|done]. cbn.
    rewrite (IH Hrest). f_equal.
    destruct (eq_str st v); cbn [length]; lia.
Qed.

Lemma status_count_bounds (v : string) (l : list pyobject) :
  0 <= Agent.status_count v l <= Z.of_nat (length l).
Proof.
  unfold Agent.status_count.
  pose proof (List.filter_length_le
    (fun s : pyobject => match s !! "status" with
                         | Some st => eq_str st v
                         | None => false
                         end) l).
  lia.
Qed.

Lemma sum_latency_returns (l : list pyobject) :
  forallb numeric_latency l = true ->
  forall k acc, 0 <= k -> k + Z.of_nat (length l) <= 2 ^ 63 ->
    partial_sum k acc ->
    exists r, Agent.sum_latency acc l = Returned r
              /\ partial_sum (k + Z.of_nat (length l)) r.
Proof.
  induction l as [|s rest IH]; intros Hl k acc Hk Hn Hacc; cbn [Agent.sum_latency].
  - exists acc. split; [done|]. cbn [length]. by rewrite Z.add_0_r.
  - cbn in Hl. apply andb_prop in Hl as [Hs Hrest].
    cbn [length] in Hn |- *.
    unfold getattr. unfold numeric_latency in Hs.
    destruct (s !! "latency_ms") as [x|]; [|done]. cbn [Py.bind].
    assert (exists acc', add acc x = Returned acc' /\ partial_sum (k + 1) acc')
      as (acc' & -> & Hacc').
    { destruct x as [| |z|g|]; try done.
      - destruct acc as [| |a|f|]; try done; cbn in Hacc |- *.
        + apply Z.ltb_lt in Hs. eexists; split; [done|]. cbn. lia.
        + destruct (float_of_int_returns z) as [g Hg]; [apply Z.ltb_lt in Hs; lia|].
          rewrite Hg. cbn. by eexists.
      - destruct acc as [| |a|f|]; try done; cbn in Hacc |- *.
        + destruct (float_of_int_returns a) as [f Hf]; [nia|].
          rewrite Hf. cbn. by eexists.
        + by eexists. }
    cbn [Py.bind].
    destruct (IH Hrest (k + 1) acc') as (r & Hr & Hsum); [lia | lia | done |].
    exists r. split; [done|].
    replace (k + Z.of_nat (S (length rest))) with (k + 1 + Z.of_nat (length rest)) by lia.
    done.
Qed.

Lemma truediv_partial_sum_returns (n : Z) (r : pyval) :
  0 < n <= 2 ^ 63 -> partial_sum n r -> exists f, truediv r n = Returned f.
Proof.
  intros Hn Hr. destruct r as [| |a|f|]; try done; cbn in Hr |- *.
  - apply int_truediv_returns; [lia | nia].
  - destruct (float_of_int_returns n) as [d Hd]; [lia|]. rewrite Hd. cbn.
    destruct (Z.eqb_spec n 0); [lia | eauto].
Qed.

(** What [calculate_metrics] returns on a history it can aggregate. *)
Lemma calculate_metrics_returns (o : Agent.PaymentObserver) :
  forallb well_formed (Agent.signals o) = true ->
  Z.of_nat (length (Agent.signals o)) <= 2 ^ 63 ->
  exists m success_rate failure_rate avg_latency,
    Agent.calculate_metrics o = Returned m
    /\ m !! "total_volume" = Some (VInt (Z.of_nat (length (Agent.signals o))))
    /\ m !! "success_count" = Some (VInt (Agent.status_count "success" (Agent.signals o)))
    /\ m !! "failure_count" = Some (VInt (Agent.status_count "failure" (Agent.signals o)))
    /\ m !! "success_rate" = Some (VFloat success_rate)
    /\ m !! "failure_rate" = Some (VFloat failure_rate)
    /\ m !! "avg_latency" = Some (VFloat avg_latency)
    /\ m !! "retry_rate" = Some (VFloat 0).
Proof.
  intros Hwf Hlen. unfold Agent.calculate_metrics.
  destruct (Z.eqb_spec (Z.of_nat (length (Agent.signals o))) 0) as [Hz|Hnz].
  - destruct (Agent.signals o); [|done].
    eexists _, _, _, _. split; [done|]. by simplify_map_eq.
  - assert (forallb has_status (Agent.signals o) = true
            /\ forallb numeric_latency (Agent.signals o) = true) as [Hst Hlat].
    { clear -Hwf. induction (Agent.signals o) as [|s l IH]; [done|].
      cbn in Hwf |- *. unfold well_formed in Hwf at 1.
      apply andb_prop in Hwf as [Hs Hl]. apply andb_prop in Hs as [-> ->].
      destruct (IH Hl) as [-> ->]. done. }
    rewrite !(count_status_returns _ _ Hst). cbn [Py.bind]. rewrite !Z.add_0_l.
    pose proof (status_count_bounds "success" (Agent.signals o)) as Hs.
    pose proof (status_count_bounds "failure" (Agent.signals o)) as Hf.
    set (n := Z.of_nat (length (Agent.signals o))) in *.
    destruct (int_truediv_returns (Agent.status_count "success" (Agent.signals o)) n)
      as [sr ->]; [lia | nia |].
    destruct (int_truediv_returns (Agent.status_count "failure" (Agent.signals o)) n)
      as [fr ->]; [lia | nia |].
    cbn [Py.bind].
    destruct (sum_latency_returns _ Hlat 0 (VInt 0)) as (r & -> & Hr);
      [lia | lia | cbn; lia |].
    cbn [Py.bind]. rewrite Z.add_0_l in Hr. fold n in Hr.
    destruct (truediv_partial_sum_returns n r) as [avg ->]; [lia | done |].
    cbn [Py.bind]. eexists _, sr, fr, avg. split; [done|]. by simplify_map_eq.
Qed.

Lemma calculate_metrics_no_zero_division (o : Agent.PaymentObserver) :
  Agent.calculate_metrics o <> Raised ZeroDivisionError.
Proof.
  unfold Agent.calculate_metrics.
  destruct (Z.eqb_spec (Z.of_nat (length (Agent.signals o))) 0) as [Hz|Hnz]; [done|].
  apply bind_no_zero_division; [apply count_status_no_zero_division|]. intros success _.
  apply bind_no_zero_division; [apply count_status_no_zero_division|]. intros failure _.
  apply bind_no_zero_division; [by apply int_truediv_no_zero_division|]. intros sr _.
  apply bind_no_zero_division; [by apply int_truediv_no_zero_division|]. intros fr _.
  apply bind_no_zero_division; [apply sum_latency_no_zero_division|]. intros lat _.
  apply bind_no_zero_division; [by apply truediv_no_zero_division|]. done.
Qed.

(** C8. With no retained signal [calculate_metrics] returns the seven fields,
    each of them zero; and on no history at all, well formed or not, does it
    divide by zero. *)
Theorem calculate_metrics_zero_guard :
  (forall mem : Agent.AgentMemory,
     exists m,
       Agent.calculate_metrics {| Agent.memory := mem; Agent.signals := [] |} = Returned m
       /\ m !! "total_volume" = Some (VInt 0)
       /\ m !! "success_count" = Some (VInt 0)
       /\ m !! "failure_count" = Some (VInt 0)
       /\ m !! "success_rate" = Some (VFloat 0)
       /\ m !! "failure_rate" = Some (VFloat 0)
       /\ m !! "avg_latency" = Some (VFloat 0)
       /\ m !! "retry_rate" = Some (VFloat 0)
       /\ size m = 7%nat)
  /\ (forall o : Agent.PaymentObserver,
        Agent.calculate_metrics o <> Raised ZeroDivisionError).
Proof.
  split; [|apply calculate_metrics_no_zero_division].
  intros mem. eexists. split; [reflexivity|].
  repeat (split; [by simplify_map_eq|]).
  by vm_compute.
Qed.

Lemma calculate_metrics_retry_rate (o : Agent.PaymentObserver) (m : pyobject) :
  Agent.calculate_metrics o = Returned m -> m !! "retry_rate" = Some (VFloat 0).
Proof.
  unfold Agent.calculate_metrics. case_match.
  - intros [= <-]. by simplify_map_eq.
  - repeat (match goal with
            | |- Py.bind ?c _ = _ -> _ => destruct c; cbn [Py.bind]; [|done]
            end).
    intros [= <-]. by simplify_map_eq.
Qed.

(** C9. On every history the observer can aggregate, whatever retry counts
    the signals were built with, [calculate_metrics] returns a snapshot whose
    [retry_rate] is the float [0.0]. *)
Theorem retry_rate_always_zero :
  forall o : Agent.PaymentObserver,
    forallb well_formed (Agent.signals o) = true ->
    Z.of_nat (length (Agent.signals o)) <= 2 ^ 63 ->
    exists m, Agent.calculate_metrics o = Returned m
              /\ m !! "retry_rate" = Some (VFloat 0).
Proof.
  intros o Hwf Hlen.
  destruct (calculate_metrics_returns o Hwf Hlen) as (m & ? & ? & ? & Hm & _).
  exists m. split; [done|]. by eapply calculate_metrics_retry_rate.
Qed.

Lemma retry_rate_always_zero_witness :
  forallb well_formed (Agent.signals (observe_all retried_signals fresh_observer)) = true
  /\ Z.of_nat (length (Agent.signals (observe_all retried_signals fresh_observer))) <= 2 ^ 63
  /\ exists m, Agent.calculate_metrics (observe_all retried_signals fresh_observer) = Returned m
               /\ m !! "retry_rate" = Some (VFloat 0).
Proof.
  split; [by vm_compute|]. split; [by vm_compute|].
  apply (retry_rate_always_zero (observe_all retried_signals fresh_observer));
    by vm_compute.
Defined.

(** Signals whose stored status is one of the three values are partitioned by
    the three counts. *)
Lemma known_status_partition (l : list pyobject) :
  forallb known_status l = true ->
  Agent.status_count "success" l + Agent.status_count "failure" l
    + Agent.status_count "pending" l = Z.of_nat (length l).
Proof.
  unfold Agent.status_count. induction l as [|s rest IH]; intros Hl; [done|].
  cbn in Hl. apply andb_prop in Hl as [Hs Hrest]. specialize (IH Hrest).
  unfold known_status in Hs. cbn [List.filter].
  destruct (s !! "status") as [[|st|z|f|t]|]; try done. cbn [eq_str].
  destruct (String.eqb st "success") eqn:E1.
  { apply String.eqb_eq in E1. subst st. cbn [length String.eqb Ascii.eqb Bool.eqb]. lia. }
  destruct (String.eqb st "failure") eqn:E2.
  { apply String.eqb_eq in E2. subst st. cbn [length String.eqb Ascii.eqb Bool.eqb]. lia. }
  destruct (String.eqb st "pending") eqn:E3; [|done].
  cbn [length]. lia.
Qed.

(** On signals whose constructor was given the status as a plain string, as
    the dashboard does, the snapshot's two counts and the pending signals add
    up to the number of signals. *)
Lemma known_status_counts (o : Agent.PaymentObserver) :
  forallb well_formed (Agent.signals o) = true ->
  forallb known_status (Agent.signals o) = true ->
  Z.of_nat (length (Agent.signals o)) <= 2 ^ 63 ->
  exists m success failure,
    Agent.calculate_metrics o = Returned m
    /\ m !! "success_count" = Some (VInt success)
    /\ m !! "failure_count" = Some (VInt failure)
    /\ success + failure + Agent.status_count "pending" (Agent.signals o)
       = Z.of_nat (length (Agent.signals o)).
Proof.
  intros Hwf Hknown Hlen.
  destruct (calculate_metrics_returns o Hwf Hlen)
    as (m & sr & fr & avg & Hm & _ & Hs & Hf & _).
  eexists m, _, _. repeat (split; [eassumption|]).
  by apply known_status_partition.
Qed.

(** With up to 150 such signals, none pending, the two rates add up to 1.0. *)
Lemma rates_sum_to_one_checked : rates_sum_to_one_up_to 150 = true.
Proof. by vm_compute. Qed.

(** C4, at a signal produced by the simulator.  Its status was passed as
    [PaymentStatus.SUCCESS] and is stored as ["PaymentStatus.SUCCESS"]; after
    [observe], the snapshot counts it neither as a success nor as a failure,
    it is not pending, and both rates are [0.0]. *)
Theorem simulated_signal_not_counted :
  fst (Simulator.generate_payment (Simulator.constant_host 0 0.5 0) Simulator.fresh_world)
    = Returned simulated_signal
  /\ simulated_signal !! "status" = Some (VStr "PaymentStatus.SUCCESS")
  /\ length (Agent.signals (observe_all [simulated_signal] fresh_observer)) = 1%nat
  /\ Agent.status_count "pending" (Agent.signals (observe_all [simulated_signal] fresh_observer)) = 0
  /\ exists m,
       Agent.calculate_metrics (observe_all [simulated_signal] fresh_observer) = Returned m
       /\ m !! "total_volume" = Some (VInt 1)
       /\ m !! "success_count" = Some (VInt 0)
       /\ m !! "failure_count" = Some (VInt 0)
       /\ m !! "success_rate" = Some (VFloat 0)
       /\ m !! "failure_rate" = Some (VFloat 0).
Proof.
  split; [reflexivity|]. split; [by vm_compute|].
  split; [reflexivity|]. split; [by vm_compute|].
  eexists. split; [reflexivity|]. repeat split; by vm_compute.
Qed.

(** ** The guardrail *)

Section Guardrail.

Import Governance.

Variables (d : Decision) (now : Z) (g : GovernanceGuardrails).

Lemma allow_rate_limited :
  max_autonomous_actions_per_hour g <= Z.of_nat (length (last_hour now (action_log g))) ->
  allow d now g = ((false, "Rate limit exceeded"), g).
Proof. intros H. unfold allow. apply Z.leb_le in H. by rewrite H. Qed.

Lemma allow_high_risk :
  Z.of_nat (length (last_hour now (action_log g))) < max_autonomous_actions_per_hour g ->
  high_risk g d = true ->
  allow d now g = ((false, "High-risk action requires approval"), g).
Proof.
  intros H Hd. unfold allow. unfold high_risk in Hd.
  destruct (Z.leb_spec (max_autonomous_actions_per_hour g)
              (Z.of_nat (length (last_hour now (action_log g))))); [lia|].
  by rewrite Hd.
Qed.

Lemma allow_approved :
  Z.of_nat (length (last_hour now (action_log g))) < max_autonomous_actions_per_hour g ->
  high_risk g d = false ->
  allow d now g =
    ((true, "Allowed"),
     {| max_autonomous_actions_per_hour := max_autonomous_actions_per_hour g;
        high_risk_actions := high_risk_actions g;
        action_log := action_log g ++ [now] |}).
Proof.
  intros H Hd. unfold allow. unfold high_risk in Hd.
  destruct (Z.leb_spec (max_autonomous_actions_per_hour g)
              (Z.of_nat (length (last_hour now (action_log g))))); [lia|].
  by rewrite Hd.
Qed.

(** The three ways a call can end. *)
Lemma allow_cases :
  allow d now g = ((false, "Rate limit exceeded"), g)
  \/ allow d now g = ((false, "High-risk action requires approval"), g)
  \/ allow d now g =
       ((true, "Allowed"),
        {| max_autonomous_actions_per_hour := max_autonomous_actions_per_hour g;
           high_risk_actions := high_risk_actions g;
           action_log := action_log g ++ [now] |}).
Proof.
  destruct (Z.le_gt_cases (max_autonomous_actions_per_hour g)
              (Z.of_nat (length (last_hour now (action_log g))))) as [H|H].
  - left. by apply allow_rate_limited.
  - destruct (high_risk g d) eqn:Hd.
    + right; left. by apply allow_high_risk.
    + right; right. by apply allow_approved.
Qed.

Lemma allow_ledger :
  action_log (snd (allow d now g))
  = if fst (fst (allow d now g)) then (action_log g ++ [now])%list else action_log g.
Proof. by destruct allow_cases as [-> | [-> | ->]]. Qed.

Lemma allow_rejection_changes_nothing :
  fst (fst (allow d now g)) = false -> snd (allow d now g) = g.
Proof. by destruct allow_cases as [-> | [-> | ->]]. Qed.

Lemma allow_configuration :
  max_autonomous_actions_per_hour (snd (allow d now g)) = max_autonomous_actions_per_hour g
  /\ high_risk_actions (snd (allow d now g)) = high_risk_actions g.
Proof. by destruct allow_cases as [-> | [-> | ->]]. Qed.

Lemma last_hour_length :
  (List.length (last_hour now (action_log g)) <= List.length (action_log g))%nat.
Proof. apply List.filter_length_le. Qed.

End Guardrail.

(** While the ledger has room for them, calls that are not high-risk are all
    approved, whatever the clock reads. *)
Lemma allow_all_under_quota (calls : list (Governance.Decision * Z)) :
  forall g : Governance.GovernanceGuardrails,
    forallb (fun c => negb (high_risk g (fst c))) calls = true ->
    Z.of_nat (length (Governance.action_log g) + length calls)
      <= Governance.max_autonomous_actions_per_hour g ->
    fst (Governance.allow_all calls g) = replicate (length calls) (true, "Allowed")
    /\ Governance.action_log (snd (Governance.allow_all calls g))
       = (Governance.action_log g ++ map snd calls)%list.
Proof.
  induction calls as [|[d t] rest IH]; intros g Hrisk Hroom.
  - cbn. by rewrite app_nil_r.
  - cbn in Hrisk. apply andb_prop in Hrisk as [Hd Hrest].
    apply negb_true_iff in Hd. cbn [Governance.allow_all].
    pose proof (last_hour_length t g) as Hlen. cbn [length] in Hroom.
    rewrite (allow_approved d t g); [|lia|done].
    destruct (IH {| Governance.max_autonomous_actions_per_hour :=
                      Governance.max_autonomous_actions_per_hour g;
                    Governance.high_risk_actions := Governance.high_risk_actions g;
                    Governance.action_log := Governance.action_log g ++ [t] |})
      as [Hres Hlog].
    + exact Hrest.
    + cbn. rewrite length_app. cbn. lia.
    + destruct (Governance.allow_all rest _) as [rs g2]. cbn in Hres, Hlog |- *.
      rewrite Hres, Hlog. by rewrite <- app_assoc.
Qed.

Lemma allow_all_configuration (calls : list (Governance.Decision * Z)) :
  forall g : Governance.GovernanceGuardrails,
    Governance.max_autonomous_actions_per_hour (snd (Governance.allow_all calls g))
      = Governance.max_autonomous_actions_per_hour g
    /\ Governance.high_risk_actions (snd (Governance.allow_all calls g))
       = Governance.high_risk_actions g.
Proof.
  induction calls as [|[d t] rest IH]; intros g; [done|].
  cbn [Governance.allow_all].
  pose proof (allow_configuration d t g) as [H1 H2].
  destruct (Governance.allow d t g) as [r g1]. cbn [snd] in H1, H2.
  specialize (IH g1). destruct (Governance.allow_all rest g1) as [rs g2].
  cbn [snd] in IH |- *. destruct IH as [-> ->]. done.
Qed.

(** An entry less than a day old is counted by the code exactly when it is
    less than 3600 seconds old. *)
Lemma seconds_within_a_day (now a : Z) :
  0 <= now - a < 86400000000 ->
  (seconds (datetime_sub now a) <? 3600) = Governance.within_3600_seconds now a.
Proof.
  intros H. unfold Governance.within_3600_seconds, datetime_sub, timedelta_of_microseconds.
  cbn [seconds]. rewrite Z.mod_small by lia.
  destruct (Z.leb_spec 0 (now - a)); [|lia]. cbn [andb].
  destruct (Z.ltb_spec (now - a) (3600 * 1000000));
    destruct (Z.ltb_spec ((now - a) / 1000000) 3600); try done;
    Z.div_mod_to_equations; lia.
Qed.

Lemma last_hour_within_a_day (now : Z) (log : list Z) :
  Forall (fun a => 0 <= now - a < 86400000000) log ->
  Governance.last_hour now log = Governance.entries_within_3600_seconds now log.
Proof.
  unfold Governance.last_hour, Governance.entries_within_3600_seconds.
  induction 1 as [|a l Ha _ IH]; [done|].
  cbn [List.filter]. by rewrite seconds_within_a_day, IH.
Qed.

(** Five approvals in one hour close the gate: the next call in that hour is
    refused for the rate limit, high-risk or not. *)
Lemma sixth_call_rate_limited (calls : list (Governance.Decision * Z))
    (d : Governance.Decision) (now : Z) :
  length calls = 5%nat ->
  forallb (fun c => negb (high_risk Governance.GovernanceGuardrails_init (fst c))) calls = true ->
  Forall (fun c => 0 <= now - snd c < 3600 * 1000000) calls ->
  fst (Governance.allow_all calls Governance.GovernanceGuardrails_init)
    = replicate 5 (true, "Allowed")
  /\ fst (Governance.allow d now
            (snd (Governance.allow_all calls Governance.GovernanceGuardrails_init)))
     = (false, "Rate limit exceeded").
Proof.
  intros Hlen Hrisk Htimes.
  destruct (allow_all_under_quota calls Governance.GovernanceGuardrails_init Hrisk)
    as [Hres Hlog]; [cbn; lia|].
  rewrite Hlen in Hres. split; [done|].
  rewrite allow_rate_limited; [done|].
  rewrite (proj1 (allow_all_configuration calls _)).
  rewrite Hlog. cbn [Governance.action_log Governance.GovernanceGuardrails_init app
                     Governance.max_autonomous_actions_per_hour].
  rewrite last_hour_within_a_day.
  - unfold Governance.entries_within_3600_seconds.
    rewrite List.forallb_filter_id.
    + rewrite length_map, Hlen. done.
    + apply forallb_forall. intros a [c [<- Hc]]%in_map_iff.
      rewrite Forall_forall in Htimes.
      apply list_elem_of_In in Hc. specialize (Htimes c Hc).
      unfold Governance.within_3600_seconds.
      apply andb_true_intro. split; [apply Z.leb_le | apply Z.ltb_lt]; lia.
  - apply Forall_forall. intros a [c [<- Hc]]%list_elem_of_In%in_map_iff.
    rewrite Forall_forall in Htimes. apply list_elem_of_In in Hc.
    specialize (Htimes c Hc). lia.
Qed.

(** C2, at a ledger whose five entries are a day old.  The five calls are
    approved; a day and ten seconds later none of the entries lies within
    3600 seconds of the clock, yet [(now-a).seconds], which drops the days of
    the difference, is below 3600 for each of them: the code counts five and
    refuses the call for the rate limit. *)
Theorem day_old_entries_still_counted :
  fst (Governance.allow_all five_calls Governance.GovernanceGuardrails_init)
    = replicate 5 (true, "Allowed")
  /\ Governance.entries_within_3600_seconds next_day
       (Governance.action_log
          (snd (Governance.allow_all five_calls Governance.GovernanceGuardrails_init)))
     = []
  /\ length (Governance.last_hour next_day
       (Governance.action_log
          (snd (Governance.allow_all five_calls Governance.GovernanceGuardrails_init))))
     = 5%nat
  /\ fst (Governance.allow (decision_of "ADJUST_RETRY") next_day
            (snd (Governance.allow_all five_calls Governance.GovernanceGuardrails_init)))
     = (false, "Rate limit exceeded").
Proof. repeat split; by vm_compute. Qed.

(** C3. [allow] appends the clock reading to the ledger when it approves and
    leaves the guardrail as it was when it rejects, for either reason.  On a
    new guardrail the high-risk action is rejected for needing approval and
    the ledger stays empty, so the next five actions that are not high-risk
    are all approved. *)
Theorem rejections_consume_no_quota :
  forall (d : Governance.Decision) (now : Z) (g : Governance.GovernanceGuardrails)
    (now0 : Z) (calls : list (Governance.Decision * Z)),
    length calls = 5%nat ->
    forallb (fun c => negb (high_risk Governance.GovernanceGuardrails_init (fst c))) calls
      = true ->
    (fst (fst (Governance.allow d now g)) = true ->
       Governance.action_log (snd (Governance.allow d now g))
         = (Governance.action_log g ++ [now])%list)
    /\ (fst (fst (Governance.allow d now g)) = false ->
          snd (Governance.allow d now g) = g)
    /\ Governance.allow high_risk_decision now0 Governance.GovernanceGuardrails_init
       = ((false, "High-risk action requires approval"),
          Governance.GovernanceGuardrails_init)
    /\ fst (Governance.allow_all calls
              (snd (Governance.allow high_risk_decision now0
                      Governance.GovernanceGuardrails_init)))
       = replicate 5 (true, "Allowed").
Proof.
  intros d now g now0 calls Hlen Hrisk.
  assert (Governance.allow high_risk_decision now0 Governance.GovernanceGuardrails_init
          = ((false, "High-risk action requires approval"),
             Governance.GovernanceGuardrails_init)) as Hrej.
  { apply allow_high_risk; [by cbn | by vm_compute]. }
  split; [|split; [|split]].
  - intros Hok. rewrite allow_ledger. by rewrite Hok.
  - apply allow_rejection_changes_nothing.
  - exact Hrej.
  - rewrite Hrej. cbn [snd]. rewrite <- Hlen.
    apply allow_all_under_quota; [done|]. cbn. lia.
Qed.

Lemma rejections_consume_no_quota_witness :
  length five_calls = 5%nat
  /\ forallb (fun c => negb (high_risk Governance.GovernanceGuardrails_init (fst c)))
       five_calls = true
  /\ fst (Governance.allow_all five_calls
            (snd (Governance.allow high_risk_decision 0
                    Governance.GovernanceGuardrails_init)))
     = replicate 5 (true, "Allowed").
Proof.
  split; [reflexivity|]. split; [by vm_compute|].
  apply (rejections_consume_no_quota high_risk_decision 0
           Governance.GovernanceGuardrails_init 0 five_calls);
    [reflexivity | by vm_compute].
Defined.

(** ** The adaptive policy *)

Lemma update_rule (m : pyobject) (sr : float) (p : Adaptive.AdaptivePolicy) :
  Adaptive.update (<["success_rate" := VFloat sr]> m) p =
    if (sr <? 0.7)%float then
      (Returned (Adaptive.success_threshold p * 0.95)%float,
       {| Adaptive.success_threshold := (Adaptive.success_threshold p * 0.95)%float |})
    else if (0.9 <? sr)%float then
      (Returned (Adaptive.success_threshold p * 1.05)%float,
       {| Adaptive.success_threshold := (Adaptive.success_threshold p * 1.05)%float |})
    else (Returned (Adaptive.success_threshold p), p).
Proof.
  unfold Adaptive.update. rewrite lookup_insert_eq. cbn [default lt_float gt_float id].
  destruct (sr <? 0.7)%float; [reflexivity|]. destruct (0.9 <? sr)%float; reflexivity.
Qed.

(** C6 as stated fails at the 14463rd update with success rate 0.5: the
    threshold has reached the subnormal [9 * 2^-1074], whose product with 0.95
    rounds back to itself, and the call returns the threshold it started from. *)
Lemma threshold_stops_decreasing :
  let p := Adaptive.update_times 14462 (metrics_with_success_rate 0.5)
             Adaptive.AdaptivePolicy_init in
  fst (Adaptive.update (metrics_with_success_rate 0.5) p)
    = Returned (Adaptive.success_threshold p)
  /\ (Adaptive.success_threshold (snd (Adaptive.update (metrics_with_success_rate 0.5) p))
       <? Adaptive.success_threshold p)%float = false.
Proof. split; by vm_compute. Qed.

(** C6, amended.  The threshold starts at 0.8; [update] multiplies it by 0.95
    when the success rate is below 0.7, by 1.05 when it is above 0.9, and
    otherwise leaves it, and returns it; nothing clamps it.  With success rate
    0.5 the thresholds are 0.8, 0.76, 0.722, ... and each of the first 14462
    calls returns less than the call before, down to [9 * 2^-1074], where the
    threshold stays.  With success rate 0.95 each of the first 14553 calls
    returns more than the call before, up to [infinity], where it stays. *)
Theorem threshold_drift :
  Adaptive.success_threshold Adaptive.AdaptivePolicy_init = 0.8%float
  /\ (forall (m : pyobject) (sr : float) (p : Adaptive.AdaptivePolicy),
        Adaptive.update (<["success_rate" := VFloat sr]> m) p =
          if (sr <? 0.7)%float then
            (Returned (Adaptive.success_threshold p * 0.95)%float,
             {| Adaptive.success_threshold := (Adaptive.success_threshold p * 0.95)%float |})
          else if (0.9 <? sr)%float then
            (Returned (Adaptive.success_threshold p * 1.05)%float,
             {| Adaptive.success_threshold := (Adaptive.success_threshold p * 1.05)%float |})
          else (Returned (Adaptive.success_threshold p), p))
  /\ map (fun n => Adaptive.success_threshold
                     (Adaptive.update_times n (metrics_with_success_rate 0.5)
                        Adaptive.AdaptivePolicy_init)) [0; 1; 2]%nat
     = [0.8; 0.76; 0.722]%float
  /\ Adaptive.strictly_monotone PrimFloat.ltb 14462 (metrics_with_success_rate 0.5)
       Adaptive.AdaptivePolicy_init = true
  /\ Adaptive.success_threshold
       (Adaptive.update_times 14462 (metrics_with_success_rate 0.5)
          Adaptive.AdaptivePolicy_init) = 4.4465908125712189e-323%float
  /\ Adaptive.update_times 1 (metrics_with_success_rate 0.5)
       (Adaptive.update_times 14462 (metrics_with_success_rate 0.5)
          Adaptive.AdaptivePolicy_init)
     = Adaptive.update_times 14462 (metrics_with_success_rate 0.5)
         Adaptive.AdaptivePolicy_init
  /\ Adaptive.strictly_monotone (fun t before => (before <? t)%float) 14553
       (metrics_with_success_rate 0.95) Adaptive.AdaptivePolicy_init = true
  /\ Adaptive.success_threshold
       (Adaptive.update_times 14553 (metrics_with_success_rate 0.95)
          Adaptive.AdaptivePolicy_init) = infinity
  /\ Adaptive.update_times 1 (metrics_with_success_rate 0.95)
       (Adaptive.update_times 14553 (metrics_with_success_rate 0.95)
          Adaptive.AdaptivePolicy_init)
     = Adaptive.update_times 14553 (metrics_with_success_rate 0.95)
         Adaptive.AdaptivePolicy_init.
Proof.
  split; [reflexivity|]. split; [apply update_rule|].
  repeat split; by vm_compute.
Qed.

(** ** The simulator *)

(** C5 as stated fails: a scenario with severity 1.5 and duration -5 is
    registered without any error, and is in the list afterwards. *)
Lemma out_of_range_scenario_registered :
  Simulator.add_degradation_scenario "latency_spike" "global" 10 (-5) 1.5
    Simulator.PaymentSimulator_init
  = (Returned tt,
     Simulator.with_scenarios
       [{| Simulator.type := "latency_spike"; Simulator.affected := "global";
           Simulator.start := 10; Simulator.end_ := 5; Simulator.severity := 1.5 |}]
       Simulator.PaymentSimulator_init)
  /\ fst (Simulator.add_degradation_scenario "latency_spike" "global" 10 (-5) 1.5
            Simulator.PaymentSimulator_init) <> Raised InvalidConfiguration.
Proof. split; [reflexivity | discriminate]. Qed.

(** C5, amended.  [add_degradation_scenario] validates nothing and cannot
    fail: whatever the severity and the duration, it returns normally and the
    scenario, with [end = start_after + duration], is appended to the list;
    the rest of the simulator is untouched. *)
Theorem add_degradation_scenario_appends :
  forall (scenario_type affected_dimension : string) (start_after duration : Z)
    (severity : float) (sim : Simulator.PaymentSimulator),
    let scenario :=
      {| Simulator.type := scenario_type; Simulator.affected := affected_dimension;
         Simulator.start := start_after; Simulator.end_ := start_after + duration;
         Simulator.severity := severity |} in
    let r := Simulator.add_degradation_scenario scenario_type affected_dimension
               start_after duration severity sim in
    fst r = Returned tt
    /\ Simulator.degradation_scenarios (snd r)
       = (Simulator.degradation_scenarios sim ++ [scenario])%list
    /\ snd r = Simulator.with_scenarios (Simulator.degradation_scenarios (snd r)) sim.
Proof. intros. repeat split. Qed.

Section Generation.

Import Simulator.

Variable h : Host.

Lemma choice_returns (seq : list string) (w : World) :
  seq <> [] ->
  exists x, choice h seq w = (Returned x, drawn w)
            /\ seq !! (pick h (draws w) mod length seq)%nat = Some x.
Proof.
  intros Hseq. unfold choice.
  destruct (lookup_lt_is_Some_2 seq (pick h (draws w) mod length seq)%nat) as [x Hx].
  - apply Nat.mod_upper_bound. by destruct seq.
  - rewrite Hx. eauto.
Qed.


Variables (counter : Z) (payment_method issuer : string).

(** A scenario whose window does not contain the counter changes nothing
    and draws nothing. *)
Lemma apply_scenario_inactive (scenario : Scenario) (d : Draft) (w : World) :
  active counter scenario = false ->
  apply_scenario h counter payment_method issuer scenario d w = (Returned d, w).
Proof. intros Hs. unfold apply_scenario. by rewrite Hs. Qed.

Lemma apply_scenarios_inactive (l : list Scenario) (d : Draft) (w : World) :
  forallb (fun s => negb (active counter s)) l = true ->
  apply_scenarios h counter payment_method issuer l d w = (Returned d, w).
Proof.
  induction l as [|s rest IH]; intros Hl; [done|].
  cbn in Hl. apply andb_prop in Hl as [Hs Hrest]. apply negb_true_iff in Hs.
  cbn [apply_scenarios]. unfold gbind. rewrite (apply_scenario_inactive _ _ _ Hs).
  by apply IH.
Qed.

(** The loop runs the scenarios in list order, each on the draft the ones
    before it have left. *)
Lemma apply_scenarios_app (l1 l2 : list Scenario) (d : Draft) (w : World) :
  apply_scenarios h counter payment_method issuer (l1 ++ l2) d w
  = gbind (apply_scenarios h counter payment_method issuer l1 d)
      (apply_scenarios h counter payment_method issuer l2) w.
Proof.
  revert d w. induction l1 as [|s rest IH]; intros d w; [done|].
  cbn [apply_scenarios app]. unfold gbind in *.
  destruct (apply_scenario h counter payment_method issuer s d w) as [[d'|e] w']; [|done].
  apply IH.
Qed.

End Generation.


Section Compounding.

Import Simulator.

Variables (h : Host) (counter : Z) (s1 e1 s2 e2 : Z).
Hypothesis window1 : s1 <= counter <= e1.
Hypothesis window2 : s2 <= counter <= e2.


Lemma apply_visa_fatigue (d : Draft) (w : World) :
  apply_scenario h counter "visa" "chase" (visa_fatigue s2 e2) d w
  = (Returned {| success_prob := (success_prob d * (1 - 0.4))%float;
                 base_latency := base_latency d;
                 retry_count := retry_count d;
                 error_code := error_code d |}, w).
Proof.
  unfold apply_scenario, active. cbn [start end_ type affected severity visa_fatigue].
  destruct (Z.leb_spec s2 counter); [|lia]. destruct (Z.leb_spec counter e2); [|lia].
  cbn [andb]. change (String.eqb "method_fatigue" "issuer_degradation") with false.
  change (String.eqb "method_fatigue" "method_fatigue") with true.
  change (String.eqb "visa" "visa") with true. by cbv iota.
Qed.



End Compounding.


Section Outcome.

Import Simulator.

Variables (h : Host) (w w' : World) (payment_method issuer processor : string) (d : Draft).
Hypothesis drafted : draft_payment h w = (Returned (payment_method, issuer, processor, d), w').

(** When the outcome draw is not below the drafted probability, the lookup of
    [PaymentStatus.FAILED] raises and no signal is returned. *)
Lemma generate_payment_failure_branch :
  (fraction h (draws w') <? success_prob d)%float = false ->
  generate_payment h w = (Raised (AttributeError "FAILED"), drawn w').
Proof.
  intros Hu. unfold generate_payment, gbind at 1. rewrite drafted.
  unfold gbind at 1. unfold random at 1. unfold gbind at 1. by rewrite Hu.
Qed.

(** When it is below, a signal is returned; its status is the string that
    [str] makes of the member [SUCCESS]. *)
Lemma generate_payment_success_branch :
  (fraction h (draws w') <? success_prob d)%float = true ->
  currencies (sim w') <> [] ->
  merchant_categories (sim w') <> [] ->
  exists s w'',
    generate_payment h w = (Returned s, w'')
    /\ s !! "status" = Some (VStr "PaymentStatus.SUCCESS")
    /\ s !! "error_code" = Some VNone.
Proof.
  intros Hu Hcur Hcat. unfold generate_payment, gbind at 1. rewrite drafted.
  unfold gbind at 1. unfold random at 1. unfold gbind at 1. rewrite Hu.
  unfold gbind, lift, ret, randint, uniform, read, clock, random.
  cbn [Agent.PaymentStatus_getattr List.find Agent.members Agent.member_name
       String.eqb Ascii.eqb Bool.eqb Z.ltb Z.compare sim draws drawn].
  destruct (choice_returns h (currencies (sim w')) (drawn (drawn (drawn w'))) Hcur)
    as (c & -> & _).
  change (sim (drawn (drawn (drawn (drawn w'))))) with (sim w').
  destruct (choice_returns h (merchant_categories (sim w'))
              (drawn (drawn (drawn (drawn w')))) Hcat) as (m & -> & _).
  eexists _, _. split; [reflexivity|].
  split; [apply PaymentSignal_status | unfold Agent.PaymentSignal; by simplify_map_eq].
Qed.


End Outcome.

(** C1, on a new simulator whose outcome draw is 0.9.  The draw is not below
    the success probability 0.85, the failure branch evaluates
    [PaymentStatus.FAILED], and the call ends in [AttributeError] instead of
    returning a signal. *)
Theorem generate_payment_failure_raises :
  Simulator.generate_payment (Simulator.constant_host 0 0.9 0) Simulator.fresh_world
  = (Raised (AttributeError "FAILED"),
     {| Simulator.sim := Simulator.with_counter 1 Simulator.PaymentSimulator_init;
        Simulator.draws := 5 |})
  /\ Agent.PaymentStatus_getattr "FAILED" = Raised (AttributeError "FAILED")
  /\ Agent.PaymentStatus_getattr "FAILURE" = Returned Agent.FAILURE.
Proof. repeat split; by vm_compute. Qed.



(** * Further properties of the code *)

(** ** The guardrail over runs of calls *)

Lemma seconds_modulo_a_day (now a : Z) :
  (seconds (datetime_sub now a) <? 3600)
  = ((now - a) mod 86400000000 <? 3600000000).
Proof.
  unfold datetime_sub, timedelta_of_microseconds. cbn [seconds].
  destruct (Z.ltb_spec ((now - a) mod 86400000000 / 1000000) 3600);
    destruct (Z.ltb_spec ((now - a) mod 86400000000) 3600000000); try done;
    Z.div_mod_to_equations; lia.
Qed.

(** X1. The entries [allow] counts are the ledger filtered, with order and
    repetitions kept, by: age reduced modulo one day below 3600 seconds.  Whole
    days of age do not count, and the number of these entries is what [allow]
    compares with the quota before anything else. *)
Theorem last_hour_counts_age_modulo_a_day :
  forall (now : Z) (log : list Z) (d : Governance.Decision) (quota : Z)
    (risky : gset string),
    let counted := List.filter (fun a => (now - a) mod 86400000000 <? 3600000000) log in
    let g := {| Governance.max_autonomous_actions_per_hour := quota;
                Governance.high_risk_actions := risky;
                Governance.action_log := log |} in
    Governance.last_hour now log = counted
    /\ Governance.allow d now g
       = if quota <=? Z.of_nat (length counted)
         then ((false, "Rate limit exceeded"), g)
         else if high_risk g d
              then ((false, "High-risk action requires approval"), g)
              else ((true, "Allowed"),
                    {| Governance.max_autonomous_actions_per_hour := quota;
                       Governance.high_risk_actions := risky;
                       Governance.action_log := (log ++ [now])%list |}).
Proof.
  intros now log d quota risky counted g.
  assert (Governance.last_hour now log = counted) as Hcounted.
  { subst counted. unfold Governance.last_hour. apply List.filter_ext.
    intros a. apply seconds_modulo_a_day. }
  split; [exact Hcounted|].
  unfold Governance.allow, high_risk. subst g.
  cbn [Governance.max_autonomous_actions_per_hour Governance.high_risk_actions
       Governance.action_log].
  by rewrite Hcounted.
Qed.

Lemma allow_all_length (calls : list (Governance.Decision * Z)) :
  forall g, length (fst (Governance.allow_all calls g)) = length calls.
Proof.
  induction calls as [|[d t] rest IH]; intros g; [done|].
  cbn [Governance.allow_all]. destruct (Governance.allow d t g) as [r g1].
  specialize (IH g1). destruct (Governance.allow_all rest g1) as [rs g2].
  cbn in IH |- *. by rewrite IH.
Qed.

Lemma allow_all_ledger (calls : list (Governance.Decision * Z)) :
  forall g,
    Governance.action_log (snd (Governance.allow_all calls g))
    = (Governance.action_log g
       ++ approved_times calls (fst (Governance.allow_all calls g)))%list.
Proof.
  induction calls as [|[d t] rest IH]; intros g.
  - cbn. by rewrite app_nil_r.
  - cbn [Governance.allow_all].
    pose proof (allow_ledger d t g) as Hlog.
    destruct (Governance.allow d t g) as [[ok reason] g1]. cbn [fst snd] in Hlog.
    specialize (IH g1). destruct (Governance.allow_all rest g1) as [rs g2].
    cbn [fst snd approved_times] in IH |- *. rewrite IH, Hlog.
    destruct ok; [by rewrite <- app_assoc | done].
Qed.

(** X2. Over any run of calls there is one answer per call, and the ledger
    grows by exactly the instants of the approved calls, in call order: no
    entry is ever removed or rewritten, and a rejected call leaves no trace. *)
Theorem ledger_grows_by_approved_calls :
  forall (calls : list (Governance.Decision * Z)) (g : Governance.GovernanceGuardrails),
    length (fst (Governance.allow_all calls g)) = length calls
    /\ Governance.action_log (snd (Governance.allow_all calls g))
       = (Governance.action_log g
          ++ approved_times calls (fst (Governance.allow_all calls g)))%list
    /\ Governance.max_autonomous_actions_per_hour (snd (Governance.allow_all calls g))
       = Governance.max_autonomous_actions_per_hour g
    /\ Governance.high_risk_actions (snd (Governance.allow_all calls g))
       = Governance.high_risk_actions g.
Proof.
  intros calls g. split; [apply allow_all_length|]. split; [apply allow_all_ledger|].
  apply allow_all_configuration.
Qed.

Lemma allow_rejects_high_risk (d : Governance.Decision) (now : Z)
    (g : Governance.GovernanceGuardrails) :
  high_risk g d = true ->
  exists reason, Governance.allow d now g = ((false, reason), g).
Proof.
  intros Hd.
  destruct (Z.le_gt_cases (Governance.max_autonomous_actions_per_hour g)
              (Z.of_nat (length (Governance.last_hour now (Governance.action_log g)))))
    as [Hq|Hq].
  - eexists. by apply allow_rate_limited.
  - eexists. apply allow_high_risk; [lia | done].
Qed.

(** X3. A high-risk action is never approved, wherever it stands in a run of
    calls and whatever the clock and the ledger are. *)
Theorem high_risk_never_approved :
  forall (calls : list (Governance.Decision * Z)) (g : Governance.GovernanceGuardrails)
    (i : nat) (d : Governance.Decision) (t : Z),
    calls !! i = Some (d, t) ->
    high_risk g d = true ->
    exists reason, fst (Governance.allow_all calls g) !! i = Some (false, reason).
Proof.
  induction calls as [|[d0 t0] rest IH]; intros g i d t Hi Hd; [done|].
  cbn [Governance.allow_all]. destruct i as [|i].
  - cbn in Hi. injection Hi as -> ->.
    destruct (allow_rejects_high_risk d t g Hd) as [reason ->].
    destruct (Governance.allow_all rest g) as [rs g2]. cbn. eauto.
  - cbn in Hi.
    pose proof (allow_configuration d0 t0 g) as [_ Hset].
    destruct (Governance.allow d0 t0 g) as [r g1]. cbn [snd] in Hset.
    destruct (IH g1 i d t Hi) as [reason Hr].
    { unfold high_risk in *. by rewrite Hset. }
    destruct (Governance.allow_all rest g1) as [rs g2]. cbn in Hr |- *. eauto.
Qed.

Lemma high_risk_never_approved_witness :
  calls_under_quota !! 1%nat = Some (high_risk_decision, 1000000)
  /\ high_risk Governance.GovernanceGuardrails_init high_risk_decision = true
  /\ (exists reason,
       fst (Governance.allow_all calls_under_quota Governance.GovernanceGuardrails_init)
         !! 1%nat = Some (false, reason))
  /\ fst (Governance.allow_all calls_under_quota Governance.GovernanceGuardrails_init)
     = [(true, "Allowed"); (false, "High-risk action requires approval");
        (true, "Allowed")]
  /\ Governance.action_log
       (snd (Governance.allow_all calls_under_quota Governance.GovernanceGuardrails_init))
     = [0; 2000000].
Proof.
  split; [reflexivity|]. split; [by vm_compute|]. split.
  - apply (high_risk_never_approved calls_under_quota
             Governance.GovernanceGuardrails_init 1 high_risk_decision 1000000);
      [reflexivity | by vm_compute].
  - split; by vm_compute.
Defined.

Lemma last_hour_keeps_recent (now : Z) (log : list Z) :
  forallb (fun a => (0 <=? now - a) && (now - a <? 3600 * 1000000)) log = true ->
  Governance.last_hour now log = log.
Proof.
  intros Hlog. unfold Governance.last_hour. apply List.forallb_filter_id.
  rewrite forallb_forall in Hlog |- *. intros a Ha. specialize (Hlog a Ha).
  apply andb_prop in Hlog as [H0 H1]. apply Z.leb_le in H0. apply Z.ltb_lt in H1.
  rewrite seconds_modulo_a_day. apply Z.ltb_lt. rewrite Z.mod_small; lia.
Qed.

Lemma approved_times_length (answers : list (bool * string)) :
  forall calls : list (Governance.Decision * Z),
    length calls = length answers ->
    Z.of_nat (length (approved_times calls answers)) = approvals answers.
Proof.
  unfold approvals.
  induction answers as [|[ok reason] rs IH]; intros [|[d t] cs] Hlen; try done.
  cbn in Hlen. injection Hlen as Hlen. specialize (IH cs Hlen).
  cbn [approved_times List.filter fst]. destruct ok; cbn [length]; lia.
Qed.

Lemma quota_kept (calls : list (Governance.Decision * Z)) :
  forall (g : Governance.GovernanceGuardrails) (earlier : list Z),
    (forall a, In a (Governance.action_log g) -> In a earlier) ->
    within_the_hour earlier calls = true ->
    Z.of_nat (length (Governance.action_log g))
      <= Z.max 0 (Governance.max_autonomous_actions_per_hour g) ->
    Z.of_nat (length (Governance.action_log (snd (Governance.allow_all calls g))))
      <= Z.max 0 (Governance.max_autonomous_actions_per_hour g).
Proof.
  induction calls as [|[d t] rest IH]; intros g earlier Hsub Hcalls Hlen; [done|].
  cbn [within_the_hour] in Hcalls. apply andb_prop in Hcalls as [Hrecent Hrest].
  assert (Governance.last_hour t (Governance.action_log g) = Governance.action_log g)
    as Hall.
  { apply last_hour_keeps_recent. rewrite forallb_forall in Hrecent |- *.
    intros a Ha. apply Hrecent. by apply Hsub. }
  cbn [Governance.allow_all].
  pose proof (allow_configuration d t g) as [Hmax _].
  destruct (allow_cases d t g) as [E | [E | E]]; rewrite E in Hmax |- *;
    cbn [snd] in Hmax;
    match goal with
    | |- context [Governance.allow_all rest ?g1] =>
        specialize (IH g1 (earlier ++ [t])%list);
        destruct (Governance.allow_all rest g1) as [rs g2]
    end; cbn [snd] in IH |- *.
  - apply IH; [intros a Ha; apply in_or_app; left; by apply Hsub | done | done].
  - apply IH; [intros a Ha; apply in_or_app; left; by apply Hsub | done | done].
  - cbn [Governance.max_autonomous_actions_per_hour Governance.action_log] in IH.
    apply IH; [| done |].
    + intros a [Ha | Ha]%in_app_or; apply in_or_app; [left; by apply Hsub | by right].
    + rewrite length_app. cbn [length].
      assert (Z.of_nat (length (Governance.last_hour t (Governance.action_log g)))
              < Governance.max_autonomous_actions_per_hour g) as Hq.
      { destruct (Z.le_gt_cases (Governance.max_autonomous_actions_per_hour g)
                    (Z.of_nat (length (Governance.last_hour t (Governance.action_log g)))))
          as [Hq|Hq]; [|lia].
        rewrite (allow_rate_limited d t g Hq) in E. discriminate. }
      rewrite Hall in Hq. lia.
Qed.

(** X4. Starting from an empty ledger, a run of calls in which every call is
    made at or after the calls before it and less than 3600 seconds after each
    of them approves at most [max_autonomous_actions_per_hour] calls (none
    when that number is negative). *)
Theorem quota_enforced_within_the_hour :
  forall (calls : list (Governance.Decision * Z)) (g : Governance.GovernanceGuardrails),
    Governance.action_log g = [] ->
    within_the_hour [] calls = true ->
    approvals (fst (Governance.allow_all calls g))
      <= Z.max 0 (Governance.max_autonomous_actions_per_hour g).
Proof.
  intros calls g Hempty Hcalls.
  rewrite <- (approved_times_length _ calls) by (by rewrite allow_all_length).
  pose proof (quota_kept calls g [] ) as Hq.
  rewrite allow_all_ledger, Hempty in Hq. cbn [app length] in Hq.
  apply Hq; [by intros a [] | done | lia].
Qed.

Lemma quota_enforced_within_the_hour_witness :
  Governance.action_log Governance.GovernanceGuardrails_init = []
  /\ within_the_hour [] eight_calls = true
  /\ approvals (fst (Governance.allow_all eight_calls Governance.GovernanceGuardrails_init))
     <= Z.max 0 (Governance.max_autonomous_actions_per_hour
                   Governance.GovernanceGuardrails_init).
Proof.
  split; [reflexivity|]. split; [by vm_compute|].
  apply (quota_enforced_within_the_hour eight_calls Governance.GovernanceGuardrails_init);
    [reflexivity | by vm_compute].
Defined.

(** X5. On a new guardrail, five calls that are not high-risk are approved,
    and a sixth call made within 3600 seconds after each of them is refused
    with the rate-limit reason, whether or not it is high-risk. *)
Theorem sixth_call_in_the_hour_refused :
  forall (calls : list (Governance.Decision * Z)) (d : Governance.Decision) (now : Z),
    length calls = 5%nat ->
    forallb (fun c => negb (high_risk Governance.GovernanceGuardrails_init (fst c))) calls
      = true ->
    forallb (fun c => (0 <=? now - snd c) && (now - snd c <? 3600 * 1000000)) calls = true ->
    fst (Governance.allow_all calls Governance.GovernanceGuardrails_init)
      = replicate 5 (true, "Allowed")
    /\ Governance.allow d now
         (snd (Governance.allow_all calls Governance.GovernanceGuardrails_init))
       = ((false, "Rate limit exceeded"),
          snd (Governance.allow_all calls Governance.GovernanceGuardrails_init)).
Proof.
  intros calls d now Hlen Hrisk Htimes.
  destruct (allow_all_under_quota calls Governance.GovernanceGuardrails_init Hrisk)
    as [Hres Hlog]; [cbn; lia|].
  rewrite Hlen in Hres. split; [done|].
  apply allow_rate_limited.
  rewrite (proj1 (allow_all_configuration calls _)), Hlog.
  cbn [Governance.action_log Governance.GovernanceGuardrails_init app
       Governance.max_autonomous_actions_per_hour].
  rewrite last_hour_keeps_recent; [rewrite length_map; lia|].
  rewrite forallb_forall in Htimes |- *.
  intros a [c [<- Hc]]%in_map_iff. by apply Htimes.
Qed.

Lemma sixth_call_in_the_hour_refused_witness :
  length five_calls = 5%nat
  /\ forallb (fun c => negb (high_risk Governance.GovernanceGuardrails_init (fst c)))
       five_calls = true
  /\ forallb (fun c => (0 <=? 5000000 - snd c) && (5000000 - snd c <? 3600 * 1000000))
       five_calls = true
  /\ fst (Governance.allow_all five_calls Governance.GovernanceGuardrails_init)
     = replicate 5 (true, "Allowed")
  /\ Governance.allow high_risk_decision 5000000
       (snd (Governance.allow_all five_calls Governance.GovernanceGuardrails_init))
     = ((false, "Rate limit exceeded"),
        snd (Governance.allow_all five_calls Governance.GovernanceGuardrails_init)).
Proof.
  split; [reflexivity|]. split; [by vm_compute|]. split; [by vm_compute|].
  apply (sixth_call_in_the_hour_refused five_calls high_risk_decision 5000000);
    [reflexivity | by vm_compute | by vm_compute].
Defined.

(** ** The adaptive policy at the edges of its input *)

Lemma int_lt_seven_tenths (z : Z) : int_lt_float z 0.7 = (z <=? 0).
Proof.
  unfold int_lt_float. set (c := Prim2SF 0.7). vm_compute in c. subst c. cbv iota.
  change (0 <=? -53) with false. cbv iota. cbn [Z.opp].
  destruct (Z.ltb_spec (z * 2 ^ 53) 6305039478318694); destruct (Z.leb_spec z 0);
    try done; lia.
Qed.

Lemma nine_tenths_lt_int (z : Z) : float_lt_int 0.9 z = (1 <=? z).
Proof.
  unfold float_lt_int. set (c := Prim2SF 0.9). vm_compute in c. subst c. cbv iota.
  change (0 <=? -53) with false. cbv iota. cbn [Z.opp].
  destruct (Z.ltb_spec 8106479329266893 (z * 2 ^ 53)); destruct (Z.leb_spec 1 z);
    try done; lia.
Qed.

(** X6. Metrics without a ["success_rate"] key are read as a success rate of
    0: [update] multiplies the threshold by 0.95. *)
Theorem update_without_success_rate :
  forall (m : pyobject) (p : Adaptive.AdaptivePolicy),
    m !! "success_rate" = None -> Adaptive.update m p = tightened p.
Proof.
  intros m p Hm. unfold Adaptive.update. rewrite Hm. cbn [default lt_float].
  by rewrite int_lt_seven_tenths.
Qed.

Lemma update_without_success_rate_witness :
  (∅ : pyobject) !! "success_rate" = None
  /\ Adaptive.update ∅ Adaptive.AdaptivePolicy_init = tightened Adaptive.AdaptivePolicy_init.
Proof.
  split; [reflexivity|].
  apply (update_without_success_rate ∅ Adaptive.AdaptivePolicy_init). reflexivity.
Defined.

(** X7. A success rate given as an int is compared exactly: zero and negative
    ints multiply the threshold by 0.95, ints from 1 on multiply it by 1.05. *)
Theorem update_with_int_success_rate :
  forall (m : pyobject) (z : Z) (p : Adaptive.AdaptivePolicy),
    Adaptive.update (<["success_rate" := VInt z]> m) p
    = if z <=? 0 then tightened p else relaxed p.
Proof.
  intros m z p. unfold Adaptive.update. rewrite lookup_insert_eq.
  cbn [default lt_float gt_float id]. rewrite int_lt_seven_tenths, nine_tenths_lt_int.
  destruct (Z.leb_spec z 0); [done|]. destruct (Z.leb_spec 1 z); [done | lia].
Qed.

(** X8. A success rate that is not a number makes [update] raise [TypeError]
    and leaves the threshold as it was; a NaN success rate is neither below
    0.7 nor above 0.9 and returns the threshold unchanged. *)
Theorem update_with_unusable_success_rate :
  forall (m : pyobject) (v : pyval) (p : Adaptive.AdaptivePolicy),
    is_number v = false ->
    Adaptive.update (<["success_rate" := v]> m) p = (Raised TypeError, p)
    /\ Adaptive.update (<["success_rate" := VFloat nan]> m) p
       = (Returned (Adaptive.success_threshold p), p).
Proof.
  intros m v p Hv. unfold Adaptive.update. rewrite !lookup_insert_eq.
  cbn [default id]. split; [by destruct v|].
  cbn [lt_float gt_float]. change (nan <? 0.7)%float with false.
  by change (0.9 <? nan)%float with false.
Qed.

Lemma update_with_unusable_success_rate_witness :
  is_number (VStr "n/a") = false
  /\ Adaptive.update (<["success_rate" := VStr "n/a"]> ∅) Adaptive.AdaptivePolicy_init
     = (Raised TypeError, Adaptive.AdaptivePolicy_init).
Proof.
  split; [reflexivity|].
  apply (update_with_unusable_success_rate ∅ (VStr "n/a") Adaptive.AdaptivePolicy_init).
  reflexivity.
Defined.

(** ** The observer and the agent around it *)

Lemma observe_all_history (l : list pyobject) :
  forall o : Agent.PaymentObserver,
    Agent.signals (observe_all l o) = (Agent.signals o ++ l)%list
    /\ Agent.recent_signals (Agent.memory (observe_all l o))
       = (Agent.recent_signals (Agent.memory o) ++ l)%list.
Proof.
  unfold observe_all. induction l as [|s rest IH]; intros o.
  - cbn. by rewrite !app_nil_r.
  - cbn [fold_left]. destruct (IH (Agent.observe s o)) as [-> ->].
    cbn. by rewrite <- !app_assoc.
Qed.

Lemma process_all_observer (l : list pyobject) :
  forall a : Agent.PaymentOpsAgent,
    Agent.observer (process_all l a) = observe_all l (Agent.observer a)
    /\ Agent.running (process_all l a) = Agent.running a.
Proof.
  unfold process_all, observe_all. induction l as [|s rest IH]; intros a; [done|].
  cbn [fold_left]. destruct (IH (Agent.process_payment_signal s a)) as [-> ->]. done.
Qed.

(** X9. The agent hands every signal to its observer, which retains all of
    them in arrival order, in its history and in the shared memory alike:
    nothing is evicted, and [running] is not touched. *)
Theorem agent_retains_every_signal :
  forall (l : list pyobject) (a : Agent.PaymentOpsAgent),
    Agent.signals (Agent.observer (process_all l a))
      = (Agent.signals (Agent.observer a) ++ l)%list
    /\ Agent.recent_signals (Agent.memory (Agent.observer (process_all l a)))
       = (Agent.recent_signals (Agent.memory (Agent.observer a)) ++ l)%list
    /\ Agent.running (process_all l a) = Agent.running a
    /\ Agent.signals (Agent.observer (process_all l Agent.PaymentOpsAgent_init)) = l
    /\ Agent.recent_signals
         (Agent.memory (Agent.observer (process_all l Agent.PaymentOpsAgent_init))) = l.
Proof.
  intros l a. destruct (process_all_observer l a) as [-> ->].
  destruct (process_all_observer l Agent.PaymentOpsAgent_init) as [-> _].
  destruct (observe_all_history l (Agent.observer a)) as [-> ->].
  destruct (observe_all_history l (Agent.observer Agent.PaymentOpsAgent_init)) as [-> ->].
  done.
Qed.

Lemma status_counts_disjoint (l : list pyobject) :
  Agent.status_count "success" l + Agent.status_count "failure" l <= Z.of_nat (length l).
Proof.
  unfold Agent.status_count. induction l as [|s rest IH]; [done|].
  cbn [List.filter]. destruct (s !! "status") as [[|st|z|f|t]|]; cbn [eq_str length]; try lia.
  destruct (String.eqb st "success") eqn:E1.
  - apply String.eqb_eq in E1. subst st. cbn [length String.eqb Ascii.eqb Bool.eqb]. lia.
  - destruct (String.eqb st "failure"); cbn [length]; lia.
Qed.

(** X10. On a history the observer can aggregate, the snapshot reports the
    number of retained signals as [total_volume] and the numbers of signals
    whose stored status is ["success"] and ["failure"] as the two counts,
    which together never exceed the total. *)
Theorem snapshot_counts_stored_statuses :
  forall o : Agent.PaymentObserver,
    forallb well_formed (Agent.signals o) = true ->
    Z.of_nat (length (Agent.signals o)) <= 2 ^ 63 ->
    exists m,
      Agent.calculate_metrics o = Returned m
      /\ m !! "total_volume" = Some (VInt (Z.of_nat (length (Agent.signals o))))
      /\ m !! "success_count" = Some (VInt (Agent.status_count "success" (Agent.signals o)))
      /\ m !! "failure_count" = Some (VInt (Agent.status_count "failure" (Agent.signals o)))
      /\ Agent.status_count "success" (Agent.signals o)
         + Agent.status_count "failure" (Agent.signals o)
         <= Z.of_nat (length (Agent.signals o)).
Proof.
  intros o Hwf Hlen.
  destruct (calculate_metrics_returns o Hwf Hlen)
    as (m & sr & fr & avg & Hm & Ht & Hs & Hf & _).
  exists m. repeat (split; [done|]). apply status_counts_disjoint.
Qed.

Lemma snapshot_counts_stored_statuses_witness :
  forallb well_formed (Agent.signals (observe_all dashboard_signals fresh_observer)) = true
  /\ Z.of_nat (length (Agent.signals (observe_all dashboard_signals fresh_observer))) <= 2 ^ 63
  /\ exists m,
       Agent.calculate_metrics (observe_all dashboard_signals fresh_observer) = Returned m
       /\ m !! "total_volume" = Some (VInt 3)
       /\ m !! "success_count" = Some (VInt 2)
       /\ m !! "failure_count" = Some (VInt 1).
Proof.
  split; [by vm_compute|]. split; [by vm_compute|].
  destruct (snapshot_counts_stored_statuses (observe_all dashboard_signals fresh_observer))
    as (m & Hm & Ht & Hs & Hf & _); [by vm_compute | by vm_compute |].
  exists m. split; [exact Hm|]. split; [exact Ht|]. split; [exact Hs | exact Hf].
Defined.

Lemma count_status_missing (v : string) (l : list pyobject) :
  existsb lacks_status l = true ->
  forall acc, Agent.count_status v acc l = Raised (AttributeError "status").
Proof.
  induction l as [|s rest IH]; intros Hl acc; [done|].
  cbn [existsb] in Hl. cbn [Agent.count_status]. unfold getattr, lacks_status in *.
  destruct (s !! "status") as [st|]; [|done].
  cbn [Py.bind]. apply IH. by rewrite orb_false_l in Hl.
Qed.

(** X11. [observe] accepts any object; if one retained object has no
    [status] attribute, [calculate_metrics] raises [AttributeError] and
    returns no snapshot. *)
Theorem missing_status_raises :
  forall o : Agent.PaymentObserver,
    existsb lacks_status (Agent.signals o) = true ->
    Agent.calculate_metrics o = Raised (AttributeError "status").
Proof.
  intros o Hl. unfold Agent.calculate_metrics.
  destruct (Agent.signals o) as [|s rest] eqn:E; [done|].
  change (Z.of_nat (length (s :: rest)) =? 0) with false. cbv iota.
  by rewrite (count_status_missing "success" _ Hl).
Qed.

Lemma missing_status_raises_witness :
  existsb lacks_status
    (Agent.signals (observe_all (dashboard_signals ++ [∅])%list fresh_observer)) = true
  /\ Agent.calculate_metrics (observe_all (dashboard_signals ++ [∅])%list fresh_observer)
     = Raised (AttributeError "status").
Proof.
  split; [by vm_compute|].
  apply (missing_status_raises (observe_all (dashboard_signals ++ [∅])%list fresh_observer)).
  by vm_compute.
Defined.

(** X12. Whenever [calculate_metrics] returns, with or without signals, the
    snapshot has exactly the seven keys, so a reader of ["success_rate"]
    never falls back on a default. *)
Theorem snapshot_has_seven_keys :
  forall (o : Agent.PaymentObserver) (m : pyobject),
    Agent.calculate_metrics o = Returned m ->
    dom m = snapshot_keys /\ is_Some (m !! "success_rate").
Proof.
  intros o m. unfold Agent.calculate_metrics, snapshot_keys. case_match.
  - intros [= <-]. split; [|by simplify_map_eq].
    rewrite !dom_insert_L, dom_empty_L. set_solver.
  - repeat (match goal with
            | |- Py.bind ?c _ = _ -> _ => destruct c; cbn [Py.bind]; [|done]
            end).
    intros [= <-]. split; [|by simplify_map_eq].
    rewrite !dom_insert_L, dom_empty_L. set_solver.
Qed.

Lemma snapshot_has_seven_keys_witness :
  exists m,
    Agent.calculate_metrics (observe_all dashboard_signals fresh_observer) = Returned m
    /\ dom m = snapshot_keys /\ is_Some (m !! "success_rate").
Proof.
  eexists. split; [reflexivity|].
  apply (snapshot_has_seven_keys (observe_all dashboard_signals fresh_observer)).
  reflexivity.
Defined.

(** X13. On a history of signals whose stored status is ["success"],
    ["failure"] or ["pending"], the two counts of the snapshot and the number
    of pending signals add up to [total_volume]. *)
Theorem value_statuses_partition_the_history :
  forall o : Agent.PaymentObserver,
    forallb well_formed (Agent.signals o) = true ->
    forallb known_status (Agent.signals o) = true ->
    Z.of_nat (length (Agent.signals o)) <= 2 ^ 63 ->
    exists m total success failure,
      Agent.calculate_metrics o = Returned m
      /\ m !! "total_volume" = Some (VInt total)
      /\ m !! "success_count" = Some (VInt success)
      /\ m !! "failure_count" = Some (VInt failure)
      /\ success + failure + Agent.status_count "pending" (Agent.signals o) = total.
Proof.
  intros o Hwf Hknown Hlen.
  destruct (calculate_metrics_returns o Hwf Hlen)
    as (m & sr & fr & avg & Hm & Ht & Hs & Hf & _).
  eexists m, _, _, _. repeat (split; [eassumption|]).
  by apply known_status_partition.
Qed.

Lemma value_statuses_partition_the_history_witness :
  forallb well_formed (Agent.signals (observe_all dashboard_signals fresh_observer)) = true
  /\ forallb known_status (Agent.signals (observe_all dashboard_signals fresh_observer)) = true
  /\ Z.of_nat (length (Agent.signals (observe_all dashboard_signals fresh_observer))) <= 2 ^ 63
  /\ exists m total success failure,
       Agent.calculate_metrics (observe_all dashboard_signals fresh_observer) = Returned m
       /\ m !! "total_volume" = Some (VInt total)
       /\ m !! "success_count" = Some (VInt success)
       /\ m !! "failure_count" = Some (VInt failure)
       /\ success + failure
          + Agent.status_count "pending"
              (Agent.signals (observe_all dashboard_signals fresh_observer))
          = total.
Proof.
  split; [by vm_compute|]. split; [by vm_compute|]. split; [by vm_compute|].
  apply (value_statuses_partition_the_history (observe_all dashboard_signals fresh_observer));
    by vm_compute.
Defined.

Lemma int_truediv_zero (n : Z) : 0 < n -> int_truediv 0 n = Returned 0%float.
Proof.
  intros Hn. unfold int_truediv.
  pose proof float_overflow_bound_large as HB.
  destruct (Z.eqb_spec n 0); [lia|].
  destruct (Z.ltb_spec (Z.abs 0) (float_overflow_bound * Z.abs n)); [|nia].
  by destruct n.
Qed.

Lemma member_status_not_counted (v : string) (l : list pyobject) :
  String.eqb v "success" || String.eqb v "failure" || String.eqb v "pending" = true ->
  forallb member_status l = true ->
  Agent.status_count v l = 0.
Proof.
  intros Hv. unfold Agent.status_count. induction l as [|s rest IH]; intros Hl; [done|].
  cbn in Hl. apply andb_prop in Hl as [Hs Hrest]. specialize (IH Hrest).
  cbn [List.filter]. unfold member_status in Hs.
  destruct (s !! "status") as [[|st|z|f|t]|]; try done.
  cbn [eq_str]. destruct (String.eqb st v) eqn:E; [|exact IH].
  apply String.eqb_eq in E. subst st. exfalso.
  apply orb_prop in Hv as [[Hv | Hv]%orb_prop | Hv];
    apply String.eqb_eq in Hv; subst v; by vm_compute in Hs.
Qed.

Lemma calculate_metrics_rates (o : Agent.PaymentObserver) :
  forallb well_formed (Agent.signals o) = true ->
  0 < Z.of_nat (length (Agent.signals o)) <= 2 ^ 63 ->
  exists m success_rate failure_rate,
    Agent.calculate_metrics o = Returned m
    /\ int_truediv (Agent.status_count "success" (Agent.signals o))
         (Z.of_nat (length (Agent.signals o))) = Returned success_rate
    /\ int_truediv (Agent.status_count "failure" (Agent.signals o))
         (Z.of_nat (length (Agent.signals o))) = Returned failure_rate
    /\ m !! "success_rate" = Some (VFloat success_rate)
    /\ m !! "failure_rate" = Some (VFloat failure_rate).
Proof.
  intros Hwf Hlen. unfold Agent.calculate_metrics.
  destruct (Z.eqb_spec (Z.of_nat (length (Agent.signals o))) 0) as [Hz|Hnz]; [lia|].
  assert (forallb has_status (Agent.signals o) = true
          /\ forallb numeric_latency (Agent.signals o) = true) as [Hst Hlat].
  { clear -Hwf. induction (Agent.signals o) as [|s l IH]; [done|].
    cbn in Hwf |- *. unfold well_formed in Hwf at 1.
    apply andb_prop in Hwf as [Hs Hl]. apply andb_prop in Hs as [-> ->].
    destruct (IH Hl) as [-> ->]. done. }
  rewrite !(count_status_returns _ _ Hst). cbn [Py.bind]. rewrite !Z.add_0_l.
  pose proof (status_count_bounds "success" (Agent.signals o)) as Hs.
  pose proof (status_count_bounds "failure" (Agent.signals o)) as Hf.
  set (n := Z.of_nat (length (Agent.signals o))) in *.
  destruct (int_truediv_returns (Agent.status_count "success" (Agent.signals o)) n)
    as [sr Hsr]; [lia | nia |].
  destruct (int_truediv_returns (Agent.status_count "failure" (Agent.signals o)) n)
    as [fr Hfr]; [lia | nia |].
  rewrite Hsr, Hfr. cbn [Py.bind].
  destruct (sum_latency_returns _ Hlat 0 (VInt 0)) as (r & -> & Hr);
    [lia | lia | cbn; lia |].
  cbn [Py.bind]. rewrite Z.add_0_l in Hr. fold n in Hr.
  destruct (truediv_partial_sum_returns n r) as [avg ->]; [lia | done |].
  cbn [Py.bind]. eexists _, sr, fr. split; [done|]. by simplify_map_eq.
Qed.

(** X14. Signals whose status was passed as a member of [PaymentStatus] are
    never counted: on a history of such signals both counts are 0 and both
    rates are [0.0], however many signals there are. *)
Theorem member_statuses_are_never_counted :
  forall o : Agent.PaymentObserver,
    forallb well_formed (Agent.signals o) = true ->
    forallb member_status (Agent.signals o) = true ->
    Z.of_nat (length (Agent.signals o)) <= 2 ^ 63 ->
    exists m,
      Agent.calculate_metrics o = Returned m
      /\ m !! "total_volume" = Some (VInt (Z.of_nat (length (Agent.signals o))))
      /\ m !! "success_count" = Some (VInt 0)
      /\ m !! "failure_count" = Some (VInt 0)
      /\ m !! "success_rate" = Some (VFloat 0)
      /\ m !! "failure_rate" = Some (VFloat 0)
      /\ Agent.status_count "pending" (Agent.signals o) = 0.
Proof.
  intros o Hwf Hmem Hlen.
  pose proof (member_status_not_counted "success" _ eq_refl Hmem) as Hs.
  pose proof (member_status_not_counted "failure" _ eq_refl Hmem) as Hf.
  pose proof (member_status_not_counted "pending" _ eq_refl Hmem) as Hp.
  destruct (calculate_metrics_returns o Hwf Hlen)
    as (m & sr & fr & avg & Hm & Ht & Hsc & Hfc & Hsr & Hfr & _).
  rewrite Hs in Hsc. rewrite Hf in Hfc.
  exists m. repeat (split; [done|]).
  destruct (Z.eq_dec (Z.of_nat (length (Agent.signals o))) 0) as [Hz|Hnz].
  - unfold Agent.calculate_metrics in Hm. rewrite Hz in Hm. cbn [Z.eqb] in Hm.
    injection Hm as <-. split; [by simplify_map_eq|]. split; [by simplify_map_eq | done].
  - destruct (calculate_metrics_rates o Hwf) as (m' & sr' & fr' & Hm' & Es & Ef & Hs' & Hf');
      [lia|].
    rewrite Hm in Hm'. injection Hm' as <-.
    rewrite Hs, int_truediv_zero in Es by lia. rewrite Hf, int_truediv_zero in Ef by lia.
    injection Es as <-. injection Ef as <-. done.
Qed.

Lemma member_statuses_are_never_counted_witness :
  let o := observe_all [simulated_signal; Agent.PaymentSignal_default "t"] fresh_observer in
  forallb well_formed (Agent.signals o) = true
  /\ forallb member_status (Agent.signals o) = true
  /\ Z.of_nat (length (Agent.signals o)) <= 2 ^ 63
  /\ exists m,
       Agent.calculate_metrics o = Returned m
       /\ m !! "total_volume" = Some (VInt 2)
       /\ m !! "success_count" = Some (VInt 0)
       /\ m !! "failure_count" = Some (VInt 0).
Proof.
  cbv zeta. split; [by vm_compute|]. split; [by vm_compute|]. split; [by vm_compute|].
  destruct (member_statuses_are_never_counted
              (observe_all [simulated_signal; Agent.PaymentSignal_default "t"] fresh_observer))
    as (m & Hm & Ht & Hs & Hf & _); [by vm_compute | by vm_compute | by vm_compute |].
  exists m. split; [exact Hm|]. split; [exact Ht|]. split; [exact Hs | exact Hf].
Defined.

(** X15. Fed the snapshot of a history without any signal stored as
    ["success"], the empty history included, [update] multiplies the threshold
    by 0.95: the success rate it reads is [0.0]. *)
Theorem no_counted_success_tightens :
  forall (o : Agent.PaymentObserver) (p : Adaptive.AdaptivePolicy),
    forallb well_formed (Agent.signals o) = true ->
    Z.of_nat (length (Agent.signals o)) <= 2 ^ 63 ->
    Agent.status_count "success" (Agent.signals o) = 0 ->
    exists m, Agent.calculate_metrics o = Returned m
              /\ Adaptive.update m p = tightened p.
Proof.
  intros o p Hwf Hlen Hs.
  assert (exists m, Agent.calculate_metrics o = Returned m
                    /\ m !! "success_rate" = Some (VFloat 0)) as (m & Hm & Hsr).
  { destruct (Z.eq_dec (Z.of_nat (length (Agent.signals o))) 0) as [Hz|Hnz].
    - unfold Agent.calculate_metrics. rewrite Hz. eexists. split; [done|].
      by simplify_map_eq.
    - destruct (calculate_metrics_rates o Hwf) as (m & sr & fr & Hm & Es & _ & Hs' & _);
        [lia|].
      rewrite Hs, int_truediv_zero in Es by lia. injection Es as <-. eauto. }
  exists m. split; [done|]. unfold Adaptive.update. rewrite Hsr.
  cbn [default id lt_float]. by change (0 <? 0.7)%float with true.
Qed.

Lemma no_counted_success_tightens_witness :
  let o := observe_all history_without_success fresh_observer in
  forallb well_formed (Agent.signals o) = true
  /\ Z.of_nat (length (Agent.signals o)) <= 2 ^ 63
  /\ Agent.status_count "success" (Agent.signals o) = 0
  /\ length (Agent.signals o) = 2%nat
  /\ Agent.status_count "failure" (Agent.signals o) = 1
  /\ exists m, Agent.calculate_metrics o = Returned m
               /\ Adaptive.update m Adaptive.AdaptivePolicy_init
                  = tightened Adaptive.AdaptivePolicy_init.
Proof.
  cbv zeta.
  split; [by vm_compute|]. split; [by vm_compute|]. split; [by vm_compute|].
  split; [reflexivity|]. split; [by vm_compute|].
  apply (no_counted_success_tightens (observe_all history_without_success fresh_observer)
           Adaptive.AdaptivePolicy_init);
    by vm_compute.
Defined.

(** ** What a call of the simulator does to the simulator *)

Section SimulatorState.

Import Simulator.

Variable h : Host.

Lemma changes_gbind {A B : Type} (f g : PaymentSimulator -> PaymentSimulator)
    (m : gen A) (k : A -> gen B) :
  changes_sim f m -> (forall a, changes_sim g (k a)) ->
  (forall s, g (f s) = f s) ->
  changes_sim f (gbind m k).
Proof.
  intros Hm Hk Hg w. unfold gbind. specialize (Hm w).
  destruct (m w) as [[a|e] w1]; cbn [snd] in Hm |- *; [|done].
  by rewrite (Hk a w1), Hm.
Qed.

Lemma keeps_gbind {A B : Type} (m : gen A) (k : A -> gen B) :
  changes_sim id m -> (forall a, changes_sim id (k a)) -> changes_sim id (gbind m k).
Proof. intros Hm Hk. by apply (changes_gbind id id). Qed.

Lemma keeps_ret {A : Type} (a : A) : changes_sim id (ret a).
Proof. done. Qed.

Lemma keeps_lift {A : Type} (o : outcome A) : changes_sim id (lift o).
Proof. done. Qed.

Lemma keeps_read {A : Type} (f : PaymentSimulator -> A) : changes_sim id (read f).
Proof. done. Qed.

Lemma keeps_clock : changes_sim id (clock h).
Proof. done. Qed.

Lemma keeps_random : changes_sim id (random h).
Proof. done. Qed.

Lemma keeps_uniform (a b : float) : changes_sim id (uniform h a b).
Proof. done. Qed.

Lemma keeps_randint (a b : Z) : changes_sim id (randint h a b).
Proof. intros w. unfold randint. by case_match. Qed.

Lemma keeps_choice (seq : list string) : changes_sim id (choice h seq).
Proof. intros w. unfold choice. by case_match. Qed.

Ltac keeps :=
  repeat first
    [ apply keeps_ret | apply keeps_lift | apply keeps_read | apply keeps_clock
    | apply keeps_random | apply keeps_uniform | apply keeps_randint
    | apply keeps_choice
    | apply keeps_gbind; [|intros ?]
    | match goal with
      | |- changes_sim id (if ?b then _ else _) => destruct b
      | |- changes_sim id (let '(_, _) := ?p in _) => destruct p
      end ].

Lemma keeps_apply_scenario (counter : Z) (payment_method issuer : string)
    (scenario : Scenario) (d : Draft) :
  changes_sim id (apply_scenario h counter payment_method issuer scenario d).
Proof. unfold apply_scenario. keeps. Qed.

Lemma keeps_apply_scenarios (counter : Z) (payment_method issuer : string)
    (scenarios : list Scenario) :
  forall d, changes_sim id (apply_scenarios h counter payment_method issuer scenarios d).
Proof.
  induction scenarios as [|s rest IH]; intros d; cbn [apply_scenarios]; [apply keeps_ret|].
  apply keeps_gbind; [apply keeps_apply_scenario | intros d'; apply IH].
Qed.

Lemma draft_payment_changes : changes_sim next_payment (draft_payment h).
Proof.
  unfold draft_payment.
  apply (changes_gbind next_payment id); [done | | done].
  intros _. keeps. apply keeps_apply_scenarios.
Qed.

Lemma generate_payment_changes : changes_sim next_payment (generate_payment h).
Proof.
  unfold generate_payment.
  apply (changes_gbind next_payment id); [apply draft_payment_changes | | done].
  intros [[[payment_method issuer] processor] d]. keeps.
Qed.

End SimulatorState.

(** X16. A call of [generate_payment] increments the transaction counter by
    one and changes nothing else of the simulator, whether it returns a signal
    or raises: a payment that fails to generate still uses up its number. *)
Theorem generate_payment_uses_one_number :
  forall (h : Simulator.Host) (w : Simulator.World),
    Simulator.sim (snd (Simulator.generate_payment h w))
    = Simulator.with_counter (Simulator.transaction_counter (Simulator.sim w) + 1)
        (Simulator.sim w)
    /\ Simulator.transaction_counter (Simulator.sim (snd (Simulator.generate_payment h w)))
       = Simulator.transaction_counter (Simulator.sim w) + 1
    /\ Simulator.degradation_scenarios (Simulator.sim (snd (Simulator.generate_payment h w)))
       = Simulator.degradation_scenarios (Simulator.sim w).
Proof.
  intros h w. rewrite (generate_payment_changes h w). done.
Qed.

(** ** What the simulator can return *)

Lemma generate_payment_returned (h : Simulator.Host) (w w' : Simulator.World) (s : pyobject) :
  Simulator.generate_payment h w = (Returned s, w') ->
  simulator_signal (Simulator.transaction_counter (Simulator.sim w) + 1) s.
Proof.
  unfold Simulator.generate_payment, Simulator.gbind at 1.
  pose proof (draft_payment_changes h w) as Hsim.
  destruct (Simulator.draft_payment h w) as [[[[[pm issuer] processor] d]|e] w1];
    [|done].
  cbn [snd] in Hsim.
  unfold Simulator.gbind at 1. unfold Simulator.random at 1. unfold Simulator.gbind at 1.
  destruct (Simulator.fraction h (Simulator.draws w1) <? Simulator.success_prob d)%float;
    [|done].
  unfold Simulator.gbind, Simulator.lift, Simulator.ret, Simulator.randint,
    Simulator.uniform, Simulator.read, Simulator.clock, Simulator.random.
  cbn [Agent.PaymentStatus_getattr List.find Agent.members Agent.member_name
       String.eqb Ascii.eqb Bool.eqb Z.ltb Z.compare Simulator.sim Simulator.draws
       Simulator.drawn].
  destruct (Simulator.choice h _ _) as [[currency|e] w2]; [|done].
  destruct (Simulator.choice h _ _) as [[category|e] w3]; [|done].
  intros [= <- _]. rewrite Hsim. cbn [next_payment Simulator.with_counter
                                     Simulator.transaction_counter].
  unfold simulator_signal. split; [apply PaymentSignal_status|].
  split; [unfold Agent.PaymentSignal; by simplify_map_eq|].
  split; [unfold Agent.PaymentSignal; by simplify_map_eq|].
  split; [eexists; split; [apply PaymentSignal_latency_ms | lia]|].
  split; [apply PaymentSignal_dom|].
  apply not_elem_of_dom. rewrite PaymentSignal_dom. by vm_compute.
Qed.

(** X17. Every signal [generate_payment] returns has the status string
    ["PaymentStatus.SUCCESS"], no error code, the identifier [txn_] followed
    by the zero-padded number of the payment, an int latency of at least 100,
    and the ten constructor attributes only: the retry count, merchant
    category and risk score drawn for it are not on the signal. *)
Theorem returned_signals_are_successes :
  forall (h : Simulator.Host) (w w' : Simulator.World) (s : pyobject),
    Simulator.generate_payment h w = (Returned s, w') ->
    s !! "status" = Some (VStr "PaymentStatus.SUCCESS")
    /\ s !! "error_code" = Some VNone
    /\ s !! "transaction_id"
       = Some (VStr (String.append "txn_"
                       (format_06d (Simulator.transaction_counter (Simulator.sim w) + 1))))
    /\ (exists latency, s !! "latency_ms" = Some (VInt latency) /\ 100 <= latency)
    /\ dom s = list_to_set Agent.named_parameters
    /\ s !! "retry_count" = None.
Proof. intros h w w' s Hs. exact (generate_payment_returned h w w' s Hs). Qed.

Lemma returned_signals_are_successes_witness :
  Simulator.generate_payment (Simulator.constant_host 0 0.5 0) Simulator.fresh_world
    = (Returned simulated_signal,
       {| Simulator.sim := Simulator.with_counter 1 Simulator.PaymentSimulator_init;
          Simulator.draws := 10 |})
  /\ simulated_signal !! "status" = Some (VStr "PaymentStatus.SUCCESS")
  /\ simulated_signal !! "transaction_id" = Some (VStr "txn_000001").
Proof.
  split; [reflexivity|].
  destruct (returned_signals_are_successes (Simulator.constant_host 0 0.5 0)
              Simulator.fresh_world
              {| Simulator.sim := Simulator.with_counter 1 Simulator.PaymentSimulator_init;
                 Simulator.draws := 10 |} simulated_signal eq_refl)
    as (Hstatus & _ & Hid & _).
  split; [exact Hstatus | exact Hid].
Defined.

(** X18. A batch that [generate_batch] returns has as many signals as were
    asked for, numbered consecutively after the counter the simulator had,
    every one of them with the status string ["PaymentStatus.SUCCESS"] and no
    error code; the counter has advanced by the size of the batch. *)
Theorem generated_batch_shape :
  forall (h : Simulator.Host) (count : nat) (w w' : Simulator.World) (l : list pyobject),
    Simulator.generate_batch h count w = (Returned l, w') ->
    length l = count
    /\ Simulator.transaction_counter (Simulator.sim w')
       = Simulator.transaction_counter (Simulator.sim w) + Z.of_nat count
    /\ forall (i : nat) (s : pyobject),
         l !! i = Some s ->
         s !! "status" = Some (VStr "PaymentStatus.SUCCESS")
         /\ s !! "error_code" = Some VNone
         /\ s !! "transaction_id"
            = Some (VStr (String.append "txn_"
                            (format_06d (Simulator.transaction_counter (Simulator.sim w)
                                         + 1 + Z.of_nat i)))).
Proof.
  intros h count. induction count as [|n IH]; intros w w' l.
  - intros [= <- <-]. split; [done|]. split; [cbn; lia|].
    intros i s Hs. by rewrite lookup_nil in Hs.
  - cbn [Simulator.generate_batch]. unfold Simulator.gbind at 1.
    pose proof (generate_payment_changes h w) as Hsim.
    destruct (Simulator.generate_payment h w) as [[s|e] w1] eqn:E; [|done].
    cbn [snd] in Hsim. unfold Simulator.gbind at 1.
    destruct (Simulator.generate_batch h n w1) as [[rest|e] w2] eqn:E2; [|done].
    intros [= <- <-].
    destruct (IH w1 w2 rest E2) as (Hlen & Hcount & Hids).
    destruct (generate_payment_returned h w w1 s E) as (Hstatus & Herror & Hid & _).
    rewrite Hsim in Hcount, Hids.
    cbn [next_payment Simulator.with_counter Simulator.transaction_counter] in Hcount, Hids.
    split; [cbn; by rewrite Hlen|].
    split; [lia|].
    intros [|i] s' Hs'.
    + injection Hs' as <-. split; [exact Hstatus|]. split; [exact Herror|].
      rewrite Hid. do 4 f_equal. lia.
    + cbn in Hs'. destruct (Hids i s' Hs') as (Hstatus' & Herror' & Hid').
      split; [exact Hstatus'|]. split; [exact Herror'|].
      rewrite Hid'. do 4 f_equal. lia.
Qed.

Lemma generated_batch_shape_witness :
  Simulator.generate_batch (Simulator.constant_host 0 0.5 0) 2 Simulator.fresh_world
    = (Returned simulated_batch,
       {| Simulator.sim := Simulator.with_counter 2 Simulator.PaymentSimulator_init;
          Simulator.draws := 20 |})
  /\ length simulated_batch = 2%nat
  /\ forall (i : nat) (s : pyobject),
       simulated_batch !! i = Some s ->
       s !! "status" = Some (VStr "PaymentStatus.SUCCESS")
       /\ s !! "error_code" = Some VNone
       /\ s !! "transaction_id"
          = Some (VStr (String.append "txn_" (format_06d (0 + 1 + Z.of_nat i)))).
Proof.
  split; [reflexivity|].
  destruct (generated_batch_shape (Simulator.constant_host 0 0.5 0) 2 Simulator.fresh_world
              {| Simulator.sim := Simulator.with_counter 2 Simulator.PaymentSimulator_init;
                 Simulator.draws := 20 |} simulated_batch eq_refl)
    as (Hlen & _ & Hall).
  split; [exact Hlen | exact Hall].
Defined.

(** ** The outcome draw and the scenario loop *)

Section WithoutScenarios.

Import Simulator.

Variables (h : Host) (w : World).
Hypothesis methods : payment_methods (sim w) <> [].
Hypothesis banks : issuer_banks (sim w) <> [].
Hypothesis procs : processors (sim w) <> [].
Hypothesis no_scenarios : degradation_scenarios (sim w) = [].

Lemma draft_without_scenarios :
  exists payment_method issuer processor latency,
    draft_payment h w
    = (Returned (payment_method, issuer, processor,
                 {| success_prob := 0.85%float; base_latency := latency;
                    retry_count := 0; error_code := None |}),
       {| sim := next_payment (sim w); draws := 4 + draws w |}).
Proof.
  unfold draft_payment, gbind at 1.
  unfold increment_counter, read, gbind.
  cbn [sim with_counter payment_methods].
  match goal with
  | |- context [choice h ?l ?w0] =>
      destruct (choice_returns h l w0 methods) as (pm & -> & _)
  end.
  cbn [sim drawn draws issuer_banks].
  match goal with
  | |- context [choice h ?l ?w0] =>
      destruct (choice_returns h l w0 banks) as (issuer & -> & _)
  end.
  cbn [sim drawn draws processors].
  match goal with
  | |- context [choice h ?l ?w0] =>
      destruct (choice_returns h l w0 procs) as (processor & -> & _)
  end.
  unfold randint. change (800 <? 200) with false. cbv iota.
  cbn [sim drawn draws with_counter transaction_counter degradation_scenarios].
  rewrite no_scenarios. cbn [apply_scenarios]. unfold ret.
  eexists _, _, _, _. reflexivity.
Qed.

End WithoutScenarios.

(** X19. On a simulator without scenarios whose pools are not empty, the
    fifth draw of the call decides it against 0.85: below, [generate_payment]
    returns a signal; otherwise it raises [AttributeError] for [FAILED]. *)
Theorem outcome_without_scenarios :
  forall (h : Simulator.Host) (w : Simulator.World),
    Simulator.payment_methods (Simulator.sim w) <> [] ->
    Simulator.issuer_banks (Simulator.sim w) <> [] ->
    Simulator.processors (Simulator.sim w) <> [] ->
    Simulator.currencies (Simulator.sim w) <> [] ->
    Simulator.merchant_categories (Simulator.sim w) <> [] ->
    Simulator.degradation_scenarios (Simulator.sim w) = [] ->
    if (Simulator.fraction h (4 + Simulator.draws w) <? 0.85)%float
    then exists s w', Simulator.generate_payment h w = (Returned s, w')
    else fst (Simulator.generate_payment h w) = Raised (AttributeError "FAILED").
Proof.
  intros h w Hm Hb Hp Hc Hk Hs.
  destruct (draft_without_scenarios h w Hm Hb Hp Hs) as (pm & issuer & pr & lat & Hdraft).
  destruct (Simulator.fraction h (4 + Simulator.draws w) <? 0.85)%float eqn:Hu.
  - destruct (generate_payment_success_branch h w _ pm issuer pr _ Hdraft Hu)
      as (s & w' & Hgen & _); [done | done | eauto].
  - by rewrite (generate_payment_failure_branch h w _ pm issuer pr _ Hdraft Hu).
Qed.

Lemma outcome_without_scenarios_witness :
  Simulator.payment_methods (Simulator.sim Simulator.fresh_world) <> []
  /\ Simulator.issuer_banks (Simulator.sim Simulator.fresh_world) <> []
  /\ Simulator.processors (Simulator.sim Simulator.fresh_world) <> []
  /\ Simulator.currencies (Simulator.sim Simulator.fresh_world) <> []
  /\ Simulator.merchant_categories (Simulator.sim Simulator.fresh_world) <> []
  /\ Simulator.degradation_scenarios (Simulator.sim Simulator.fresh_world) = []
  /\ fst (Simulator.generate_payment (Simulator.constant_host 0 0.9 0) Simulator.fresh_world)
     = Raised (AttributeError "FAILED").
Proof.
  repeat (split; [discriminate|]). split; [reflexivity|].
  exact (outcome_without_scenarios (Simulator.constant_host 0 0.9 0) Simulator.fresh_world
           ltac:(discriminate) ltac:(discriminate) ltac:(discriminate)
           ltac:(discriminate) ltac:(discriminate) eq_refl).
Defined.

(** X20. A scenario whose type is not one of the five known strings has no
    effect and uses no draw, even while its window is open. *)
Theorem unknown_scenario_type_is_ignored :
  forall (h : Simulator.Host) (counter : Z) (payment_method issuer : string)
    (scenario : Simulator.Scenario) (d : Simulator.Draft) (w : Simulator.World),
    known_type scenario = false ->
    Simulator.apply_scenario h counter payment_method issuer scenario d w = (Returned d, w).
Proof.
  intros h counter pm issuer scenario d w Hk. unfold Simulator.apply_scenario.
  unfold known_type, known_scenario_types in Hk. cbn [existsb] in Hk.
  rewrite !orb_false_iff in Hk. destruct Hk as (H1 & H2 & H3 & H4 & H5 & _).
  rewrite H1, H2, H3, H4, H5. by case_match.
Qed.

Lemma unknown_scenario_type_is_ignored_witness :
  let scenario :=
    {| Simulator.type := "Issuer_Degradation"; Simulator.affected := "chase";
       Simulator.start := 0; Simulator.end_ := 100; Simulator.severity := 0.6 |} in
  let d := {| Simulator.success_prob := 0.85; Simulator.base_latency := 300;
              Simulator.retry_count := 0; Simulator.error_code := None |} in
  known_type scenario = false
  /\ Simulator.active 50 scenario = true
  /\ Simulator.apply_scenario (Simulator.constant_host 0 0.5 0) 50 "visa" "chase"
       scenario d Simulator.fresh_world = (Returned d, Simulator.fresh_world).
Proof.
  cbv zeta. split; [reflexivity|]. split; [reflexivity|].
  apply unknown_scenario_type_is_ignored. reflexivity.
Defined.

(** X21. A scenario registered with a negative duration is accepted, but its
    window is empty: from then on the scenario loop does exactly what it did
    before the registration, for every counter, draft and draw. *)
Theorem negative_duration_never_applies :
  forall (scenario_type affected_dimension : string) (start_after duration : Z)
    (severity : float) (sim : Simulator.PaymentSimulator)
    (h : Simulator.Host) (counter : Z) (payment_method issuer : string)
    (d : Simulator.Draft) (w : Simulator.World),
    duration < 0 ->
    Simulator.apply_scenarios h counter payment_method issuer
      (Simulator.degradation_scenarios
         (snd (Simulator.add_degradation_scenario scenario_type affected_dimension
                 start_after duration severity sim))) d w
    = Simulator.apply_scenarios h counter payment_method issuer
        (Simulator.degradation_scenarios sim) d w.
Proof.
  intros ty aff st dur sev sim h counter pm issuer d w Hdur.
  cbn [Simulator.add_degradation_scenario snd Simulator.with_scenarios
       Simulator.degradation_scenarios].
  rewrite apply_scenarios_app. unfold Simulator.gbind.
  destruct (Simulator.apply_scenarios h counter pm issuer
              (Simulator.degradation_scenarios sim) d w) as [[d'|e] w']; [|done].
  cbn [Simulator.apply_scenarios]. unfold Simulator.gbind.
  rewrite apply_scenario_inactive; [done|].
  unfold Simulator.active. cbn [Simulator.start Simulator.end_].
  destruct (Z.leb_spec st counter); destruct (Z.leb_spec counter (st + dur)); try done; lia.
Qed.

Lemma negative_duration_never_applies_witness :
  -5 < 0
  /\ Simulator.apply_scenarios (Simulator.constant_host 0 0.5 0) 12 "visa" "chase"
       (Simulator.degradation_scenarios
          (snd (Simulator.add_degradation_scenario "latency_spike" "global" 10 (-5) 1.5
                  Simulator.PaymentSimulator_init)))
       {| Simulator.success_prob := 0.85; Simulator.base_latency := 300;
          Simulator.retry_count := 0; Simulator.error_code := None |}
       Simulator.fresh_world
     = Simulator.apply_scenarios (Simulator.constant_host 0 0.5 0) 12 "visa" "chase"
         (Simulator.degradation_scenarios Simulator.PaymentSimulator_init)
         {| Simulator.success_prob := 0.85; Simulator.base_latency := 300;
            Simulator.retry_count := 0; Simulator.error_code := None |}
         Simulator.fresh_world.
Proof.
  split; [lia|]. apply negative_duration_never_applies. lia.
Defined.

Section Clustering.

Import Simulator.

Variables (h : Host) (counter : Z) (s e : Z) (sev : float) (w : World).
Hypothesis window : s <= counter <= e.
Hypothesis hit : (fraction h (draws w) <? sev)%float = true.

Lemma apply_fraud_clustering (d : Draft) :
  apply_scenario h counter "visa" "chase" (fraud_clustering s e sev) d w
  = (Returned {| success_prob := 0.1%float;
                 base_latency := base_latency d;
                 retry_count := retry_count d;
                 error_code := Some "E005_FRAUD_SUSPECTED" |}, drawn w).
Proof.
  unfold apply_scenario, active. cbn [start end_ type affected severity fraud_clustering].
  destruct (Z.leb_spec s counter); [|lia]. destruct (Z.leb_spec counter e); [|lia].
  cbn [andb]. change (String.eqb "error_clustering" "issuer_degradation") with false.
  change (String.eqb "error_clustering" "method_fatigue") with false.
  change (String.eqb "error_clustering" "retry_storm") with false.
  change (String.eqb "error_clustering" "latency_spike") with false.
  change (String.eqb "error_clustering" "error_clustering") with true. cbv iota.
  unfold gbind, random. by rewrite hit.
Qed.

End Clustering.

(** X22. The order of registration decides the result.  When an error
    clustering scenario hits, it sets the probability to 0.1 whatever the
    scenarios before it had made of it, and the scenarios after it scale that
    0.1: visa fatigue registered before the clustering leaves 0.1, registered
    after it leaves 0.1 * (1 - 0.4), which is less. *)
Theorem registration_order_decides :
  forall (h : Simulator.Host) (counter s1 e1 s2 e2 : Z) (sev : float)
    (d : Simulator.Draft) (w : Simulator.World),
    s1 <= counter <= e1 ->
    s2 <= counter <= e2 ->
    (Simulator.fraction h (Simulator.draws w) <? sev)%float = true ->
    Simulator.apply_scenarios h counter "visa" "chase"
      [visa_fatigue s1 e1; fraud_clustering s2 e2 sev] d w
    = (Returned {| Simulator.success_prob := 0.1%float;
                   Simulator.base_latency := Simulator.base_latency d;
                   Simulator.retry_count := Simulator.retry_count d;
                   Simulator.error_code := Some "E005_FRAUD_SUSPECTED" |},
       Simulator.drawn w)
    /\ Simulator.apply_scenarios h counter "visa" "chase"
         [fraud_clustering s2 e2 sev; visa_fatigue s1 e1] d w
       = (Returned {| Simulator.success_prob := (0.1 * (1 - 0.4))%float;
                      Simulator.base_latency := Simulator.base_latency d;
                      Simulator.retry_count := Simulator.retry_count d;
                      Simulator.error_code := Some "E005_FRAUD_SUSPECTED" |},
          Simulator.drawn w)
    /\ (0.1 * (1 - 0.4) <? 0.1)%float = true.
Proof.
  intros h counter s1 e1 s2 e2 sev d w Hw1 Hw2 Hit.
  split; [|split; [|by vm_compute]].
  - cbn [Simulator.apply_scenarios]. unfold Simulator.gbind.
    rewrite (apply_visa_fatigue h counter s1 e1 Hw1).
    by rewrite (apply_fraud_clustering h counter s2 e2 sev w Hw2 Hit).
  - cbn [Simulator.apply_scenarios]. unfold Simulator.gbind.
    rewrite (apply_fraud_clustering h counter s2 e2 sev w Hw2 Hit).
    by rewrite (apply_visa_fatigue h counter s1 e1 Hw1).
Qed.

Lemma registration_order_decides_witness :
  let d := {| Simulator.success_prob := 0.85; Simulator.base_latency := 300;
              Simulator.retry_count := 0; Simulator.error_code := None |} in
  80 <= 190 <= 200
  /\ 180 <= 190 <= 220
  /\ (Simulator.fraction (Simulator.constant_host 0 0.125 0)
        (Simulator.draws Simulator.fresh_world) <? 0.25)%float = true
  /\ Simulator.apply_scenarios (Simulator.constant_host 0 0.125 0) 190 "visa" "chase"
       [visa_fatigue 80 200; fraud_clustering 180 220 0.25] d Simulator.fresh_world
     = (Returned {| Simulator.success_prob := 0.1%float;
                    Simulator.base_latency := 300;
                    Simulator.retry_count := 0;
                    Simulator.error_code := Some "E005_FRAUD_SUSPECTED" |},
        Simulator.drawn Simulator.fresh_world).
Proof.
  cbv zeta. split; [lia|]. split; [lia|]. split; [reflexivity|].
  exact (proj1 (registration_order_decides (Simulator.constant_host 0 0.125 0)
                  190 80 200 180 220 0.25
                  {| Simulator.success_prob := 0.85; Simulator.base_latency := 300;
                     Simulator.retry_count := 0; Simulator.error_code := None |}
                  Simulator.fresh_world ltac:(lia) ltac:(lia) eq_refl)).
Defined.

(** ** The manual batch of the dashboard *)

Section ManualBatch.

Import Frontend.

Variables (h : Simulator.Host) (i : Inputs) (now : float) (batch : Z).
Variables (prefix status : string) (error_code : option string).
Variables (latency : Z) (low high : float).
Hypothesis latency_range : 50 <= latency <= 3000.
Hypothesis prefix_known : prefix = "S-" \/ prefix = "F-".

Lemma int_times_returns (f : float) : exists x, int_times latency f = Returned x.
Proof.
  unfold int_times. destruct (float_of_int_returns latency) as [x ->]; [lia|].
  cbn. eauto.
Qed.

Lemma add_signal_returns (r : Run) :
  exists sig,
    add_signal h i now batch prefix status error_code latency low high r
    = Returned {| agent := Agent.process_payment_signal sig (agent r);
                  session := {| signals := signals (session r) ++ [sig];
                                batch_id := batch_id (session r) |};
                  draws := S (S (S (draws r))) |}
    /\ batch_signal batch status sig
    /\ sig !! "transaction_id"
       = Some (VStr (String.append prefix (pretty (length (signals (session r)))))).
Proof.
  unfold add_signal.
  destruct (int_times_returns low) as [a ->]. destruct (int_times_returns high) as [b ->].
  cbn [Py.bind]. eexists. split; [reflexivity|].
  unfold batch_signal, Agent.PaymentSignal.
  split; [split; [by simplify_map_eq | split; [by simplify_map_eq|]]|].
  - eexists. by simplify_map_eq.
  - by simplify_map_eq.
Qed.

Lemma repeat_body_returns (n : nat) :
  forall r : Run,
    exists l,
      repeat_body n (add_signal h i now batch prefix status error_code latency low high) r
      = Returned {| agent := process_all l (agent r);
                    session := {| signals := signals (session r) ++ l;
                                  batch_id := batch_id (session r) |};
                    draws := (3 * n + draws r)%nat |}
      /\ length l = n
      /\ Forall (batch_signal batch status) l
      /\ numbered (length (signals (session r))) l.
Proof.
  induction n as [|n IH]; intros r.
  - exists []. cbn [repeat_body]. rewrite app_nil_r. destruct r as [a [s b] k].
    split; [done|]. split; [done|]. split; [done|]. intros j s' Hj.
    by rewrite lookup_nil in Hj.
  - cbn [repeat_body]. destruct (add_signal_returns r) as (sig & -> & Hsig & Hid).
    cbn [Py.bind].
    destruct (IH {| agent := Agent.process_payment_signal sig (agent r);
                    session := {| signals := signals (session r) ++ [sig];
                                  batch_id := batch_id (session r) |};
                    draws := S (S (S (draws r))) |}) as (l & -> & Hlen & Hall & Hnum).
    exists (sig :: l). cbn [agent session signals batch_id draws] in *.
    split; [|split; [cbn; by rewrite Hlen | split; [by constructor|]]].
    + rewrite <- app_assoc. cbn [app]. unfold process_all. cbn [fold_left].
      do 2 f_equal. lia.
    + intros [|j] s' Hj.
      * injection Hj as <-. exists prefix. split; [done|]. rewrite Hid.
        do 3 f_equal. f_equal. lia.
      * cbn in Hj. destruct (Hnum j s' Hj) as (p & Hp & Hs').
        exists p. split; [done|]. rewrite Hs'. rewrite length_app. cbn [length].
        do 3 f_equal. f_equal. lia.
Qed.

End ManualBatch.

Lemma status_count_app (v : string) (l1 l2 : list pyobject) :
  Agent.status_count v (l1 ++ l2) = Agent.status_count v l1 + Agent.status_count v l2.
Proof. unfold Agent.status_count. rewrite List.filter_app, length_app. lia. Qed.

Lemma batch_signals_counted (batch : Z) (status v : string) (l : list pyobject) :
  Forall (batch_signal batch status) l ->
  Agent.status_count v l = if String.eqb status v then Z.of_nat (length l) else 0.
Proof.
  unfold Agent.status_count. induction 1 as [|s rest (Hs & _) _ IH]; [by case_match|].
  cbn [List.filter]. rewrite Hs. cbn [eq_str].
  destruct (String.eqb status v); cbn [length]; lia.
Qed.

Lemma batch_signals_well_formed (batch : Z) (status : string) (l : list pyobject) :
  Forall (batch_signal batch status) l -> forallb well_formed l = true.
Proof.
  induction 1 as [|s rest (Hs & _ & f & Hf) _ IH]; [done|].
  cbn [forallb]. rewrite IH. unfold well_formed, has_status, numeric_latency.
  by rewrite Hs, Hf.
Qed.

Section ManualRun.

Import Frontend.

Variables (h : Simulator.Host) (i : Inputs) (now : float) (before : SessionState) (k : nat).
Hypothesis pressed : add_tx i = true.
Hypothesis valid : success_tx i + failed_tx i = total_tx i.
Hypothesis successes : 0 <= success_tx i.
Hypothesis failures : 0 <= failed_tx i.
Hypothesis average : 50 <= avg_latency i <= 3000.
Hypothesis tail : 50 <= p95_latency i <= 3000.

Lemma run_adds_batch :
  exists good bad,
    run h i now before k
    = Returned {| agent := process_all (good ++ bad) Agent.PaymentOpsAgent_init;
                  session :=
                    {| signals := signals (session_at_start i before) ++ good ++ bad;
                       batch_id := batch_id (session_at_start i before) + 1 |};
                  draws := (3 * Z.to_nat (total_tx i) + k)%nat |}
    /\ Z.of_nat (length good) = success_tx i
    /\ Z.of_nat (length bad) = failed_tx i
    /\ Forall (batch_signal (batch_id (session_at_start i before)) "success") good
    /\ Forall (batch_signal (batch_id (session_at_start i before)) "failure") bad
    /\ numbered (length (signals (session_at_start i before))) (good ++ bad).
Proof.
  unfold run. rewrite pressed. apply Z.eqb_eq in valid as Hv. rewrite Hv. cbn [andb].
  fold (session_at_start i before).
  change {| signals := []; batch_id := 1 |} with SessionState_init.
  fold (session_at_start i before).
  set (s0 := session_at_start i before).
  destruct (repeat_body_returns h i now (batch_id s0) "S-" "success" None
              (avg_latency i) 0.7 1.1 average (or_introl eq_refl)
              (Z.to_nat (success_tx i))
              {| agent := Agent.PaymentOpsAgent_init; session := s0; draws := k |})
    as (good & -> & Hgood & Hgs & Hgn).
  cbn [Py.bind agent session signals batch_id draws] in *.
  destruct (repeat_body_returns h i now (batch_id s0) "F-" "failure" (Some "TIMEOUT")
              (p95_latency i) 0.9 1.3 tail (or_intror eq_refl)
              (Z.to_nat (failed_tx i))
              {| agent := process_all good Agent.PaymentOpsAgent_init;
                 session := {| signals := signals s0 ++ good; batch_id := batch_id s0 |};
                 draws := (3 * Z.to_nat (success_tx i) + k)%nat |})
    as (bad & -> & Hbad & Hbs & Hbn).
  cbn [Py.bind agent session signals batch_id draws] in *.
  exists good, bad. split; [|split; [lia | split; [lia | split; [done | split; [done|]]]]].
  - f_equal. f_equal.
    + unfold process_all. by rewrite fold_left_app.
    + f_equal. by rewrite <- app_assoc.
    + lia.
  - intros j s Hj. destruct (lookup_app_Some good bad j s) as [[Hg | [Hge Hb]] _]; [done| |].
    + by apply Hgn.
    + destruct (Hbn _ _ Hb) as (p & Hp & Hs). exists p. split; [done|].
      rewrite Hs. rewrite length_app. do 3 f_equal. f_equal. lia.
Qed.

End ManualRun.

Lemma numbered_ids_distinct (l : list pyobject) :
  numbered 0 l -> NoDup (map transaction_id_of l).
Proof.
  intros Hnum. apply NoDup_alt. intros a b x Ha Hb.
  rewrite list_lookup_fmap in Ha, Hb.
  destruct (l !! a) as [sa|] eqn:Ea; [|done]. destruct (l !! b) as [sb|] eqn:Eb; [|done].
  cbn in Ha, Hb. destruct (Hnum a sa Ea) as (pa & Hpa & Hsa).
  destruct (Hnum b sb Eb) as (pb & Hpb & Hsb).
  unfold transaction_id_of in *. rewrite Hsa in Ha. rewrite Hsb in Hb.
  rewrite <- Hb in Ha. injection Ha as Ha. cbn [Nat.add] in Ha.
  destruct Hpa as [-> | ->], Hpb as [-> | ->]; cbn [String.append] in Ha;
    try discriminate; injection Ha as Ha; by apply pretty_nat_inj in Ha.
Qed.

(** X23. A run of the dashboard that adds a valid batch creates a new agent
    and feeds it exactly that batch: the agent's snapshot reports the entered
    total, successes and failures, whatever the session already held. *)
Theorem manual_batch_is_counted :
  forall (h : Simulator.Host) (i : Frontend.Inputs) (now : float)
    (before : Frontend.SessionState) (k : nat),
    Frontend.add_tx i = true ->
    Frontend.success_tx i + Frontend.failed_tx i = Frontend.total_tx i ->
    0 <= Frontend.success_tx i ->
    0 <= Frontend.failed_tx i ->
    50 <= Frontend.avg_latency i <= 3000 ->
    50 <= Frontend.p95_latency i <= 3000 ->
    Frontend.total_tx i <= 2 ^ 63 ->
    exists r m,
      Frontend.run h i now before k = Returned r
      /\ Agent.calculate_metrics (Agent.observer (Frontend.agent r)) = Returned m
      /\ m !! "total_volume" = Some (VInt (Frontend.total_tx i))
      /\ m !! "success_count" = Some (VInt (Frontend.success_tx i))
      /\ m !! "failure_count" = Some (VInt (Frontend.failed_tx i)).
Proof.
  intros h i now before k Hadd Hvalid Hs Hf Havg Hp95 Htotal.
  destruct (run_adds_batch h i now before k Hadd Hvalid Hs Hf Havg Hp95)
    as (good & bad & -> & Hgood & Hbad & Hgs & Hbs & _).
  eexists. cbn [Frontend.agent].
  destruct (process_all_observer (good ++ bad) Agent.PaymentOpsAgent_init) as [Hobs _].
  pose proof (observe_all_history (good ++ bad) (Agent.observer Agent.PaymentOpsAgent_init))
    as [Hsig _].
  rewrite <- Hobs in Hsig. cbn [Agent.PaymentOpsAgent_init Agent.observer
    Agent.PaymentObserver_init Agent.signals app] in Hsig.
  set (o := Agent.observer (process_all (good ++ bad) Agent.PaymentOpsAgent_init)) in *.
  destruct (calculate_metrics_returns o) as (m & sr & fr & avg & Hm & Ht & Hsc & Hfc & _).
  { rewrite Hsig, forallb_app.
    by rewrite (batch_signals_well_formed _ _ _ Hgs), (batch_signals_well_formed _ _ _ Hbs). }
  { rewrite Hsig, length_app. lia. }
  exists m. split; [reflexivity|]. split; [exact Hm|].
  rewrite Hsig in Ht, Hsc, Hfc. rewrite length_app in Ht.
  rewrite !status_count_app in Hsc, Hfc.
  rewrite (batch_signals_counted _ _ "success" _ Hgs),
          (batch_signals_counted _ _ "success" _ Hbs) in Hsc.
  rewrite (batch_signals_counted _ _ "failure" _ Hgs),
          (batch_signals_counted _ _ "failure" _ Hbs) in Hfc.
  cbn [String.eqb Ascii.eqb Bool.eqb] in Hsc, Hfc.
  split; [rewrite Ht; do 2 f_equal; lia|].
  split; [rewrite Hsc; do 2 f_equal; lia | rewrite Hfc; do 2 f_equal; lia].
Qed.

Lemma manual_batch_is_counted_witness :
  Frontend.add_tx default_inputs = true
  /\ Frontend.success_tx default_inputs + Frontend.failed_tx default_inputs
     = Frontend.total_tx default_inputs
  /\ 0 <= Frontend.success_tx default_inputs
  /\ 0 <= Frontend.failed_tx default_inputs
  /\ 50 <= Frontend.avg_latency default_inputs <= 3000
  /\ 50 <= Frontend.p95_latency default_inputs <= 3000
  /\ Frontend.total_tx default_inputs <= 2 ^ 63
  /\ exists r m,
       Frontend.run (Simulator.constant_host 0 0.5 0) default_inputs 1700000000
         Frontend.SessionState_init 0 = Returned r
       /\ Agent.calculate_metrics (Agent.observer (Frontend.agent r)) = Returned m
       /\ m !! "total_volume" = Some (VInt 50)
       /\ m !! "success_count" = Some (VInt 40)
       /\ m !! "failure_count" = Some (VInt 10).
Proof.
  split; [reflexivity|]. split; [reflexivity|]. split; [cbn; lia|]. split; [cbn; lia|].
  split; [cbn; lia|]. split; [cbn; lia|]. split; [by vm_compute|].
  apply (manual_batch_is_counted (Simulator.constant_host 0 0.5 0) default_inputs
           1700000000 Frontend.SessionState_init 0);
    [reflexivity | reflexivity | cbn; lia | cbn; lia | cbn; lia | cbn; lia | by vm_compute].
Defined.

(** X24. Such a run appends the batch to the session, as many signals as the
    entered total, each tagged with the session's batch number, leaves the
    signals already there as they were, moves the batch number up by one and
    makes three draws per signal. *)
Theorem manual_batch_extends_session :
  forall (h : Simulator.Host) (i : Frontend.Inputs) (now : float)
    (before : Frontend.SessionState) (k : nat),
    Frontend.add_tx i = true ->
    Frontend.clear_log i = false ->
    Frontend.success_tx i + Frontend.failed_tx i = Frontend.total_tx i ->
    0 <= Frontend.success_tx i ->
    0 <= Frontend.failed_tx i ->
    50 <= Frontend.avg_latency i <= 3000 ->
    50 <= Frontend.p95_latency i <= 3000 ->
    exists r batch,
      Frontend.run h i now before k = Returned r
      /\ Frontend.signals (Frontend.session r) = (Frontend.signals before ++ batch)%list
      /\ Z.of_nat (length batch) = Frontend.total_tx i
      /\ Forall (fun s => s !! "batch_id" = Some (VInt (Frontend.batch_id before))) batch
      /\ Frontend.batch_id (Frontend.session r) = Frontend.batch_id before + 1
      /\ Frontend.draws r = (3 * Z.to_nat (Frontend.total_tx i) + k)%nat.
Proof.
  intros h i now before k Hadd Hclear Hvalid Hs Hf Havg Hp95.
  destruct (run_adds_batch h i now before k Hadd Hvalid Hs Hf Havg Hp95)
    as (good & bad & -> & Hgood & Hbad & Hgs & Hbs & _).
  unfold session_at_start in *. rewrite Hclear in *.
  eexists _, (good ++ bad)%list. split; [reflexivity|]. cbn [Frontend.session
    Frontend.signals Frontend.batch_id Frontend.draws].
  split; [done|]. split; [rewrite length_app; lia|]. split; [|done].
  apply Forall_app. split; eapply Forall_impl; try eassumption; by intros s (_ & Hb & _).
Qed.

Lemma manual_batch_extends_session_witness :
  Frontend.add_tx default_inputs = true
  /\ Frontend.clear_log default_inputs = false
  /\ Frontend.success_tx default_inputs + Frontend.failed_tx default_inputs
     = Frontend.total_tx default_inputs
  /\ 0 <= Frontend.success_tx default_inputs
  /\ 0 <= Frontend.failed_tx default_inputs
  /\ 50 <= Frontend.avg_latency default_inputs <= 3000
  /\ 50 <= Frontend.p95_latency default_inputs <= 3000
  /\ exists r batch,
       Frontend.run (Simulator.constant_host 0 0.5 0) default_inputs 1700000000
         Frontend.SessionState_init 0 = Returned r
       /\ Frontend.signals (Frontend.session r)
          = (Frontend.signals Frontend.SessionState_init ++ batch)%list
       /\ Z.of_nat (length batch) = 50
       /\ Frontend.batch_id (Frontend.session r) = 2.
Proof.
  split; [reflexivity|]. split; [reflexivity|]. split; [reflexivity|].
  split; [cbn; lia|]. split; [cbn; lia|]. split; [cbn; lia|]. split; [cbn; lia|].
  destruct (manual_batch_extends_session (Simulator.constant_host 0 0.5 0) default_inputs
              1700000000 Frontend.SessionState_init 0)
    as (r & batch & Hr & Hsig & Hlen & _ & Hid & _);
    [reflexivity | reflexivity | reflexivity | cbn; lia | cbn; lia | cbn; lia | cbn; lia |].
  exists r, batch. split; [exact Hr|]. split; [exact Hsig|]. split; [exact Hlen | exact Hid].
Defined.

(** X25. If the [i]-th signal of the session carries the number [i] in its
    identifier, as in a session that only such runs have filled, then this
    still holds after a run that adds a batch, and the identifiers of the
    session are pairwise distinct. *)
Theorem session_identifiers_stay_distinct :
  forall (h : Simulator.Host) (i : Frontend.Inputs) (now : float)
    (before : Frontend.SessionState) (k : nat),
    Frontend.add_tx i = true ->
    Frontend.success_tx i + Frontend.failed_tx i = Frontend.total_tx i ->
    0 <= Frontend.success_tx i ->
    0 <= Frontend.failed_tx i ->
    50 <= Frontend.avg_latency i <= 3000 ->
    50 <= Frontend.p95_latency i <= 3000 ->
    numbered 0 (Frontend.signals before) ->
    exists r,
      Frontend.run h i now before k = Returned r
      /\ numbered 0 (Frontend.signals (Frontend.session r))
      /\ NoDup (map transaction_id_of (Frontend.signals (Frontend.session r))).
Proof.
  intros h i now before k Hadd Hvalid Hs Hf Havg Hp95 Hbefore.
  destruct (run_adds_batch h i now before k Hadd Hvalid Hs Hf Havg Hp95)
    as (good & bad & -> & _ & _ & _ & _ & Hnum).
  eexists. split; [reflexivity|]. cbn [Frontend.session Frontend.signals].
  assert (numbered 0 (Frontend.signals (session_at_start i before))) as Hstart.
  { unfold session_at_start. destruct (Frontend.clear_log i); [|done].
    intros j s Hj. cbn in Hj. by rewrite lookup_nil in Hj. }
  assert (numbered 0 (Frontend.signals (session_at_start i before) ++ good ++ bad))
    as Hall.
  { intros j s Hj.
    destruct (lookup_app_Some (Frontend.signals (session_at_start i before))
                (good ++ bad) j s) as [[Hl | [Hge Hr]] _]; [done | by apply Hstart |].
    destruct (Hnum _ _ Hr) as (p & Hp & Hid). exists p. split; [done|].
    rewrite Hid. do 3 f_equal. f_equal. lia. }
  split; [done | by apply numbered_ids_distinct].
Qed.

Lemma session_identifiers_stay_distinct_witness :
  Frontend.add_tx default_inputs = true
  /\ Frontend.success_tx default_inputs + Frontend.failed_tx default_inputs
     = Frontend.total_tx default_inputs
  /\ 0 <= Frontend.success_tx default_inputs
  /\ 0 <= Frontend.failed_tx default_inputs
  /\ 50 <= Frontend.avg_latency default_inputs <= 3000
  /\ 50 <= Frontend.p95_latency default_inputs <= 3000
  /\ numbered 0 (Frontend.signals Frontend.SessionState_init)
  /\ exists r,
       Frontend.run (Simulator.constant_host 0 0.5 0) default_inputs 1700000000
         Frontend.SessionState_init 0 = Returned r
       /\ NoDup (map transaction_id_of (Frontend.signals (Frontend.session r))).
Proof.
  assert (numbered 0 (Frontend.signals Frontend.SessionState_init)) as Hempty.
  { intros j s Hj. cbn in Hj. by rewrite lookup_nil in Hj. }
  split; [reflexivity|]. split; [reflexivity|]. split; [cbn; lia|]. split; [cbn; lia|].
  split; [cbn; lia|]. split; [cbn; lia|]. split; [exact Hempty|].
  destruct (session_identifiers_stay_distinct (Simulator.constant_host 0 0.5 0)
              default_inputs 1700000000 Frontend.SessionState_init 0)
    as (r & Hr & _ & Hdistinct);
    [reflexivity | reflexivity | cbn; lia | cbn; lia | cbn; lia | cbn; lia | exact Hempty |].
  exists r. split; [exact Hr | exact Hdistinct].
Defined.

(** ** The enumeration, the demonstration scenarios, an empty pool *)

(** X26. Each member of [PaymentStatus] is found under its own name, and
    [str] of a member is the qualified name ["PaymentStatus.<NAME>"], which is
    the value of no member.  So a constructor given the member stores a status
    that is none of the three values the observer compares with, where one
    given the member's value stores that value. *)
Theorem member_str_is_no_value :
  forall (m : Agent.PaymentStatus) (transaction_id : string) (amount : float)
    (currency : string) (latency_ms timestamp : pyval)
    (error_code payment_method processor issuer_bank : option string)
    (kwargs : list (string * pyval)),
    let built status :=
      Agent.PaymentSignal transaction_id amount currency status latency_ms
        error_code timestamp payment_method processor issuer_bank kwargs in
    Agent.PaymentStatus_getattr (Agent.member_name m) = Returned m
    /\ (forall k : Agent.PaymentStatus, Agent.str (Agent.Member m) <> Agent.value k)
    /\ built (Agent.Member m) !! "status"
       = Some (VStr (String.append "PaymentStatus." (Agent.member_name m)))
    /\ known_status (built (Agent.Member m)) = false
    /\ built (Agent.Plain (Agent.value m)) !! "status" = Some (VStr (Agent.value m))
    /\ known_status (built (Agent.Plain (Agent.value m))) = true.
Proof.
  intros m transaction_id amount currency latency_ms timestamp error_code payment_method
    processor issuer_bank kwargs built. subst built. cbv beta.
  split; [by destruct m|]. split; [intros k; by destruct m, k|].
  unfold known_status. rewrite !PaymentSignal_status.
  by destruct m.
Qed.

(** X27. With the demonstration scenarios set up on a simulator that had
    none, a payment numbered below 50 or above 220 meets no open window: the
    scenario loop returns the draft as it got it and makes no draw. *)
Theorem realistic_scenarios_window :
  forall (h : Simulator.Host) (sim : Simulator.PaymentSimulator) (counter : Z)
    (payment_method issuer : string) (d : Simulator.Draft) (w : Simulator.World),
    Simulator.degradation_scenarios sim = [] ->
    counter < 50 \/ 220 < counter ->
    Simulator.apply_scenarios h counter payment_method issuer
      (Simulator.degradation_scenarios (Simulator.setup_realistic_scenarios sim)) d w
    = (Returned d, w).
Proof.
  intros h sim counter pm issuer d w Hnone Hout.
  apply apply_scenarios_inactive.
  cbn [Simulator.setup_realistic_scenarios Simulator.add_degradation_scenario snd
       Simulator.with_scenarios Simulator.degradation_scenarios].
  rewrite Hnone. cbn [app forallb]. unfold Simulator.active.
  cbn [Simulator.start Simulator.end_].
  repeat match goal with
         | |- context [?a <=? ?b] => destruct (Z.leb_spec a b)
         end; try done; lia.
Qed.

Lemma realistic_scenarios_window_witness :
  Simulator.degradation_scenarios Simulator.PaymentSimulator_init = []
  /\ (10 < 50 \/ 220 < 10)
  /\ Simulator.apply_scenarios (Simulator.constant_host 0 0.5 0) 10 "visa" "chase"
       (Simulator.degradation_scenarios
          (Simulator.setup_realistic_scenarios Simulator.PaymentSimulator_init))
       {| Simulator.success_prob := 0.85; Simulator.base_latency := 300;
          Simulator.retry_count := 0; Simulator.error_code := None |}
       Simulator.fresh_world
     = (Returned {| Simulator.success_prob := 0.85; Simulator.base_latency := 300;
                    Simulator.retry_count := 0; Simulator.error_code := None |},
        Simulator.fresh_world).
Proof.
  split; [reflexivity|]. split; [left; lia|].
  apply realistic_scenarios_window; [reflexivity | left; lia].
Defined.

(** X28. With an empty pool of payment methods [generate_payment] raises
    [IndexError] at its first draw: no signal, no draw used, and the counter
    already moved up by one. *)
Theorem empty_pool_raises :
  forall (h : Simulator.Host) (w : Simulator.World),
    Simulator.payment_methods (Simulator.sim w) = [] ->
    Simulator.generate_payment h w
    = (Raised IndexError,
       {| Simulator.sim := next_payment (Simulator.sim w);
          Simulator.draws := Simulator.draws w |}).
Proof.
  intros h w Hempty.
  unfold Simulator.generate_payment, Simulator.draft_payment, Simulator.gbind,
    Simulator.increment_counter, Simulator.read, Simulator.choice.
  cbn [Simulator.sim Simulator.with_counter Simulator.payment_methods Simulator.draws].
  by rewrite Hempty.
Qed.

Lemma empty_pool_raises_witness :
  let sim :=
    {| Simulator.payment_methods := [];
       Simulator.issuer_banks := ["chase"];
       Simulator.processors := ["stripe"];
       Simulator.error_codes := ["E004_TIMEOUT"];
       Simulator.currencies := ["USD"];
       Simulator.merchant_categories := ["retail"];
       Simulator.degradation_scenarios := [];
       Simulator.transaction_counter := 7 |} in
  Simulator.payment_methods sim = []
  /\ Simulator.generate_payment (Simulator.constant_host 0 0.5 0)
       {| Simulator.sim := sim; Simulator.draws := 0 |}
     = (Raised IndexError,
        {| Simulator.sim := next_payment sim; Simulator.draws := 0 |}).
Proof.
  cbv zeta. split; [reflexivity|].
  apply empty_pool_raises. reflexivity.
Defined.
